(** * Close-approach filters and the result limiter

    A shallow embedding of [filters.py]: the [AttributeFilter] class
    hierarchy, [create_filters] and the generator [limit], together with
    the records of [models.py] and the [query] generator of [database.py]
    that [filters.py] is written against; of the two writers of
    [write.py], up to the rows and objects they hand to the [csv] and
    [json] modules; and of the loop of [load_approaches] in
    [extract.py]. *)

From Stdlib Require Import String List ZArith Bool Lia.
From Stdlib Require Import Floats.SpecFloat.
Import ListNotations.
Open Scope Z_scope.

(** ** Python values and exceptions *)

(** The two exceptions that evaluating a filter can raise:
    [UnsupportedCriterionError] (declared in [filters.py]) and the
    [TypeError] of an ordering comparison between incomparable values. *)
Inductive exn : Type :=
  | UnsupportedCriterionError
  | TypeError.

(** A computation that returns a value or raises. *)
Inductive result (A : Type) : Type :=
  | Ok (a : A)
  | Raise (e : exn).
Arguments Ok {A} a.
Arguments Raise {A} e.

Definition bind {A B : Type} (r : result A) (k : A -> result B) : result B :=
  match r with
  | Ok a => k a
  | Raise e => Raise e
  end.

Notation "x <- r ;; k" := (bind r (fun x => k))
  (at level 61, r at next level, right associativity).

Definition is_ok {A : Type} (r : result A) : bool :=
  match r with
  | Ok _ => true
  | Raise _ => false
  end.

(** [datetime.date]: compared as the triple (year, month, day). *)
Record date : Type := mkdate {
  year : Z;
  month : Z;
  day : Z
}.

(** [datetime.datetime]; [date_part] is its [.date()] method. *)
Record datetime : Type := mkdatetime {
  dt_year : Z;
  dt_month : Z;
  dt_day : Z;
  hour : Z;
  minute : Z;
  second : Z;
  microsecond : Z
}.

Definition date_part (t : datetime) : date :=
  mkdate (dt_year t) (dt_month t) (dt_day t).

Definition date_compare (d1 d2 : date) : comparison :=
  match year d1 ?= year d2 with
  | Eq => match month d1 ?= month d2 with
          | Eq => day d1 ?= day d2
          | c => c
          end
  | c => c
  end.

(** The Python values that reach a filter: [None], a [bool], a [float]
    (an IEEE 754 binary64, here a [spec_float], whose [S754_nan] is
    [float('nan')]) and a [date]. *)
Inductive value : Type :=
  | VNone
  | VBool (b : bool)
  | VFloat (x : spec_float)
  | VDate (d : date).

(** [v is not None] *)
Definition is_not_None (v : value) : bool :=
  match v with
  | VNone => false
  | _ => true
  end.

(** [bool] is a subclass of [int]: [True] compares as 1 and [False] as 0. *)
Definition float_of_bool (b : bool) : spec_float :=
  if b then S754_finite false 4503599627370496 (-52) else S754_zero false.

Definition as_number (v : value) : option spec_float :=
  match v with
  | VBool b => Some (float_of_bool b)
  | VFloat x => Some x
  | _ => None
  end.

(** The rich comparisons of the [operator] module. *)
Inductive comparator : Type :=
  | op_lt | op_le | op_eq | op_ne | op_ge | op_gt.

Definition comparator_eqb (o1 o2 : comparator) : bool :=
  match o1, o2 with
  | op_lt, op_lt | op_le, op_le | op_eq, op_eq
  | op_ne, op_ne | op_ge, op_ge | op_gt, op_gt => true
  | _, _ => false
  end.

(** [op(x, y)] on two floats: every comparison with a NaN is false,
    except [!=], which is true. *)
Definition float_op (o : comparator) (x y : spec_float) : bool :=
  match o with
  | op_lt => SFltb x y
  | op_le => SFleb x y
  | op_eq => SFeqb x y
  | op_ne => negb (SFeqb x y)
  | op_ge => SFleb y x
  | op_gt => SFltb y x
  end.

Definition date_op (o : comparator) (d1 d2 : date) : bool :=
  match o, date_compare d1 d2 with
  | op_lt, Lt => true
  | op_le, (Lt | Eq) => true
  | op_eq, Eq => true
  | op_ne, (Lt | Gt) => true
  | op_ge, (Gt | Eq) => true
  | op_gt, Gt => true
  | _, _ => false
  end.

(** [op(x, y)] on values of unrelated types: [==] is false and [!=] is
    true unless both are [None]; an ordering comparison raises
    [TypeError] (also for [None] against [None]). *)
Definition mismatch_op (o : comparator) (both_None : bool) : result bool :=
  match o with
  | op_eq => Ok both_None
  | op_ne => Ok (negb both_None)
  | _ => Raise TypeError
  end.

Definition apply_op (o : comparator) (x y : value) : result bool :=
  match x, y with
  | VDate d1, VDate d2 => Ok (date_op o d1 d2)
  | VNone, VNone => mismatch_op o true
  | _, _ =>
      match as_number x, as_number y with
      | Some a, Some b => Ok (float_op o a b)
      | _, _ => mismatch_op o false
      end
  end.

(** ** The records of [models.py] *)

(** Modelled from the spec: the class [NearEarthObject] of [models.py],
    which is not part of the sources at hand.  The spec gives it a
    designation, an optional name, an optional diameter in kilometres and
    a boolean hazard flag.  The docstring of [DiameterFilter.get] and the
    guard [diameter is not None] of [write_to_csv] fix the type of the
    diameter: a float (possibly NaN) or [None]. *)
Record NearEarthObject : Type := mkNEO {
  designation : string;
  name : option string;
  diameter : option spec_float;
  hazardous : bool
}.

(** Modelled from the spec: the class [CloseApproach] of [models.py],
    which is not part of the sources at hand: a UTC timestamp, a nominal
    distance (au), a relative velocity (km/s) and the linked NEO. *)
Record CloseApproach : Type := mkCA {
  time : datetime;
  distance : spec_float;
  velocity : spec_float;
  neo : NearEarthObject
}.

Definition value_of_diameter (d : option spec_float) : value :=
  match d with
  | Some x => VFloat x
  | None => VNone
  end.

(** ** [AttributeFilter] and its subclasses *)

(** The class of a filter object decides which [get] is dispatched. *)
Inductive filter_class : Type :=
  | AttributeFilter_cls
  | DateFilter
  | DistanceFilter
  | VelocityFilter
  | DiameterFilter
  | HazardousFilter.

Definition filter_class_eqb (c1 c2 : filter_class) : bool :=
  match c1, c2 with
  | AttributeFilter_cls, AttributeFilter_cls
  | DateFilter, DateFilter
  | DistanceFilter, DistanceFilter
  | VelocityFilter, VelocityFilter
  | DiameterFilter, DiameterFilter
  | HazardousFilter, HazardousFilter => true
  | _, _ => false
  end.

(** An instance: its class and the two attributes set by [__init__]. *)
Record AttributeFilter : Type := mkFilter {
  cls : filter_class;
  op : comparator;
  fvalue : value
}.

(** The classmethod [get], by class. *)
Definition get (c : filter_class) (approach : CloseApproach) : result value :=
  match c with
  | AttributeFilter_cls => Raise UnsupportedCriterionError
  | DateFilter => Ok (VDate (date_part (time approach)))
  | DistanceFilter => Ok (VFloat (distance approach))
  | VelocityFilter => Ok (VFloat (velocity approach))
  | DiameterFilter => Ok (value_of_diameter (diameter (neo approach)))
  | HazardousFilter => Ok (VBool (hazardous (neo approach)))
  end.

(** [__call__]: [self.op(self.get(approach), self.value)]. *)
Definition call (self : AttributeFilter) (approach : CloseApproach) : result bool :=
  v <- get (cls self) approach ;;
  apply_op (op self) v (fvalue self).

(** ** [create_filters] *)

(** The ten keyword arguments of [create_filters]. *)
Record criteria : Type := mkCriteria {
  c_date : value;
  c_start_date : value;
  c_end_date : value;
  c_distance_min : value;
  c_distance_max : value;
  c_velocity_min : value;
  c_velocity_max : value;
  c_diameter_min : value;
  c_diameter_max : value;
  c_hazardous : value
}.

(** All arguments left at their default [None]. *)
Definition no_criteria : criteria :=
  mkCriteria VNone VNone VNone VNone VNone VNone VNone VNone VNone VNone.

(** One statement
    [if v is not None: command_filters.append(C(o, v))]. *)
Definition append_if_given (c : filter_class) (o : comparator) (v : value)
    (command_filters : list AttributeFilter) : list AttributeFilter :=
  if is_not_None v then command_filters ++ [mkFilter c o v]
  else command_filters.

Definition create_filters (k : criteria) : list AttributeFilter :=
  let command_filters := [] in
  let command_filters := append_if_given DateFilter op_eq (c_date k) command_filters in
  let command_filters := append_if_given DateFilter op_ge (c_start_date k) command_filters in
  let command_filters := append_if_given DateFilter op_le (c_end_date k) command_filters in
  let command_filters := append_if_given DistanceFilter op_ge (c_distance_min k) command_filters in
  let command_filters := append_if_given DistanceFilter op_le (c_distance_max k) command_filters in
  let command_filters := append_if_given VelocityFilter op_ge (c_velocity_min k) command_filters in
  let command_filters := append_if_given VelocityFilter op_le (c_velocity_max k) command_filters in
  let command_filters := append_if_given DiameterFilter op_ge (c_diameter_min k) command_filters in
  let command_filters := append_if_given DiameterFilter op_le (c_diameter_max k) command_filters in
  let command_filters := append_if_given HazardousFilter op_eq (c_hazardous k) command_filters in
  command_filters.

(** The criteria by name, and the filter the documentation of
    [create_filters] promises for each of them. *)
Inductive criterion : Type :=
  | date_c | start_date_c | end_date_c
  | distance_min_c | distance_max_c
  | velocity_min_c | velocity_max_c
  | diameter_min_c | diameter_max_c
  | hazardous_c.

Definition all_criterions : list criterion :=
  [date_c; start_date_c; end_date_c; distance_min_c; distance_max_c;
   velocity_min_c; velocity_max_c; diameter_min_c; diameter_max_c;
   hazardous_c].

Definition criterion_eqb (c1 c2 : criterion) : bool :=
  match c1, c2 with
  | date_c, date_c | start_date_c, start_date_c | end_date_c, end_date_c
  | distance_min_c, distance_min_c | distance_max_c, distance_max_c
  | velocity_min_c, velocity_min_c | velocity_max_c, velocity_max_c
  | diameter_min_c, diameter_min_c | diameter_max_c, diameter_max_c
  | hazardous_c, hazardous_c => true
  | _, _ => false
  end.

Definition argument (k : criteria) (c : criterion) : value :=
  match c with
  | date_c => c_date k
  | start_date_c => c_start_date k
  | end_date_c => c_end_date k
  | distance_min_c => c_distance_min k
  | distance_max_c => c_distance_max k
  | velocity_min_c => c_velocity_min k
  | velocity_max_c => c_velocity_max k
  | diameter_min_c => c_diameter_min k
  | diameter_max_c => c_diameter_max k
  | hazardous_c => c_hazardous k
  end.

Definition expected_class (c : criterion) : filter_class :=
  match c with
  | date_c | start_date_c | end_date_c => DateFilter
  | distance_min_c | distance_max_c => DistanceFilter
  | velocity_min_c | velocity_max_c => VelocityFilter
  | diameter_min_c | diameter_max_c => DiameterFilter
  | hazardous_c => HazardousFilter
  end.

Definition expected_op (c : criterion) : comparator :=
  match c with
  | date_c | hazardous_c => op_eq
  | start_date_c | distance_min_c | velocity_min_c | diameter_min_c => op_ge
  | end_date_c | distance_max_c | velocity_max_c | diameter_max_c => op_le
  end.

Definition expected_filter (k : criteria) (c : criterion) : AttributeFilter :=
  mkFilter (expected_class c) (expected_op c) (argument k c).

(** What one criterion contributes to the returned list. *)
Definition contribution (k : criteria) (c : criterion) : list AttributeFilter :=
  if is_not_None (argument k c) then [expected_filter k c] else [].

(** [built_for c f]: [f] has the class and the comparator of criterion [c]. *)
Definition built_for (c : criterion) (f : AttributeFilter) : bool :=
  filter_class_eqb (cls f) (expected_class c)
  && comparator_eqb (op f) (expected_op c).

Definition with_hazardous (k : criteria) (h : value) : criteria :=
  mkCriteria (c_date k) (c_start_date k) (c_end_date k)
             (c_distance_min k) (c_distance_max k)
             (c_velocity_min k) (c_velocity_max k)
             (c_diameter_min k) (c_diameter_max k) h.

(** ** Iterators and generators *)

(** What one [next(it)] does: hand out an item, raise [StopIteration], or
    raise another exception. *)
Inductive outcome (A : Type) : Type :=
  | Yield (a : A)
  | StopIteration
  | Raised (e : exn).
Arguments Yield {A} a.
Arguments StopIteration {A}.
Arguments Raised {A} e.

(** How a [for] loop over an iterator ends; [Pending] when the loop was
    cut off before the iterator stopped. *)
Inductive ending : Type :=
  | Exhausted
  | Failed (e : exn)
  | Pending.

Section Consumers.
Context {A St : Type}.
(** [__next__] of an iterator whose internal state has type [St]. *)
Variable next : St -> outcome A * St.

(** [k] successive calls of [next(it)], each with its outcome. *)
Fixpoint calls (k : nat) (s : St) : list (outcome A) * St :=
  match k with
  | O => ([], s)
  | S k' =>
      let (o, s1) := next s in
      let (os, s2) := calls k' s1 in
      (o :: os, s2)
  end.

(** [for v in it: ...] (or [list(it)]): call [next(it)] until it does
    not yield; at most [fuel] calls. *)
Fixpoint consume (fuel : nat) (s : St) : list A * ending * St :=
  match fuel with
  | O => ([], Pending, s)
  | S fuel' =>
      match next s with
      | (Yield v, s1) =>
          let '(vs, e, s2) := consume fuel' s1 in (v :: vs, e, s2)
      | (StopIteration, s1) => ([], Exhausted, s1)
      | (Raised e, s1) => ([], Failed e, s1)
      end
  end.
End Consumers.

(** A list iterator: the state is the part of the list not yet handed out. *)
Definition list_next {A : Type} (l : list A) : outcome A * list A :=
  match l with
  | [] => (StopIteration, [])
  | x :: rest => (Yield x, rest)
  end.

(** A source that never stops: [itertools.count(start)]. *)
Definition count_next (i : Z) : outcome Z * Z := (Yield i, i + 1).

(** ** [limit] *)

(** Where the body of [limit] is suspended: inside [yield from iterator],
    or at [yield value] in the [for] loop, [count] being the index that
    [enumerate] hands out next. *)
Inductive position : Type :=
  | in_yield_from
  | in_for (count : Z) (n : Z).

Inductive gen_state : Type :=
  | Created (n : option Z)
  | Suspended (p : position)
  | Returned.

Section Limit.
Context {A St : Type}.
Variable next : St -> outcome A * St.

(** The generator object [limit(iterator, n)]: its frame, the source
    iterator it holds, and (ghost) how often it has called the
    source's [next]. *)
Record limit_gen : Type := mkGen {
  frame : gen_state;
  iterator : St;
  pulls : nat
}.

Definition limit (iterator : St) (n : option Z) : limit_gen :=
  mkGen (Created n) iterator 0.

(** [if n is None or n == 0] *)
Definition enter (n : option Z) : position :=
  match n with
  | None => in_yield_from
  | Some z => if z =? 0 then in_yield_from else in_for 0 z
  end.

Definition resume_at (p : position) (g : limit_gen) : outcome A * limit_gen :=
  let (o, s) := next (iterator g) in
  let pulled := S (pulls g) in
  match p with
  | in_yield_from =>
      match o with
      | Yield value => (Yield value, mkGen (Suspended in_yield_from) s pulled)
      | StopIteration => (StopIteration, mkGen Returned s pulled)
      | Raised e => (Raised e, mkGen Returned s pulled)
      end
  | in_for i n =>
      match o with
      | Yield value =>
          if i >=? n then (StopIteration, mkGen Returned s pulled)
          else (Yield value, mkGen (Suspended (in_for (i + 1) n)) s pulled)
      | StopIteration => (StopIteration, mkGen Returned s pulled)
      | Raised e => (Raised e, mkGen Returned s pulled)
      end
  end.

(** [next(g)] on the generator. *)
Definition limit_next (g : limit_gen) : outcome A * limit_gen :=
  match frame g with
  | Created n => resume_at (enter n) g
  | Suspended p => resume_at p g
  | Returned => (StopIteration, g)
  end.
End Limit.

Arguments limit_gen St : clear implicits.
Arguments limit {St} iterator n.

(** The generator has not left, or is about to enter, the branch
    [yield from iterator]. *)
Definition passing {St : Type} (g : limit_gen St) : Prop :=
  frame g = Created None \/ frame g = Created (Some 0)
  \/ frame g = Suspended in_yield_from.

(** The generator is in the [for] loop, [enumerate] about to hand out
    index [i]; before the first [next(g)] that index is 0. *)
Definition looping {St : Type} (i n : Z) (g : limit_gen St) : Prop :=
  frame g = Suspended (in_for i n)
  \/ (frame g = Created (Some n) /\ n <> 0 /\ i = 0).

(** The number of [next] calls that a loop ending in [e] spent on
    learning that the iterator has stopped. *)
Definition closing_calls (e : ending) : nat :=
  match e with
  | Pending => 0
  | _ => 1
  end.

(** ** [query] *)

(** [all(f(approach) for f in filters)] *)
Fixpoint all_pass (filters : list AttributeFilter) (approach : CloseApproach)
    : result bool :=
  match filters with
  | [] => Ok true
  | f :: filters' =>
      b <- call f approach ;;
      if b then all_pass filters' approach else Ok false
  end.

(** Modelled from the spec: the generator [NEODatabase.query] of
    [database.py], which is not part of the sources at hand.  The spec
    (4.5, 7) has it walk the approaches in their stored order and yield
    those for which all filters evaluate true, lazily, an exception of a
    filter being surfaced to the caller at once.  The state of the
    generator is the list of approaches still to be examined. *)
Fixpoint query_next (filters : list AttributeFilter)
    (approaches : list CloseApproach)
    : outcome CloseApproach * list CloseApproach :=
  match approaches with
  | [] => (StopIteration, [])
  | approach :: rest =>
      match all_pass filters approach with
      | Ok true => (Yield approach, rest)
      | Ok false => query_next filters rest
      | Raise e => (Raised e, [])
      end
  end.

(** [list(query(filters))] over the stored [approaches]. *)
Definition query (approaches : list CloseApproach)
    (filters : list AttributeFilter) : list CloseApproach * ending :=
  fst (consume (query_next filters) (S (length approaches)) approaches).

(** The whole run of the generator at once: the approaches it yields
    and how it ends. *)
Fixpoint query_all (filters : list AttributeFilter)
    (approaches : list CloseApproach) : list CloseApproach * ending :=
  match approaches with
  | [] => ([], Exhausted)
  | approach :: rest =>
      match all_pass filters approach with
      | Ok true =>
          let (vs, e) := query_all filters rest in (approach :: vs, e)
      | Ok false => query_all filters rest
      | Raise e => ([], Failed e)
      end
  end.

(** [f(approach)] evaluates true. *)
Definition holds (f : AttributeFilter) (approach : CloseApproach) : bool :=
  match call f approach with
  | Ok true => true
  | _ => false
  end.

(** No filter of [filters] raises on an approach of [approaches]. *)
Definition evaluable (filters : list AttributeFilter)
    (approaches : list CloseApproach) : bool :=
  forallb (fun a => forallb (fun f => is_ok (call f a)) filters) approaches.

Definition not_hazardous (approach : CloseApproach) : bool :=
  negb (hazardous (neo approach)).

(** ** Sample data *)

Definition three_items : list Z := [10; 20; 30].

Definition half : spec_float := S754_finite false 4503599627370496 (-53).

Definition noon_2020_01_01 : datetime := mkdatetime 2020 1 1 12 0 0 0.

Definition neo_A : NearEarthObject :=
  mkNEO "433" (Some "Eros"%string) (Some (S754_finite false 4503599627370496 (-52))) true.
Definition neo_B : NearEarthObject :=
  mkNEO "2020 AB" None None false.
Definition neo_C : NearEarthObject :=
  mkNEO "2019 XY" None (Some S754_nan) false.

Definition approach_A : CloseApproach := mkCA noon_2020_01_01 half half neo_A.
Definition approach_B : CloseApproach := mkCA noon_2020_01_01 half half neo_B.
Definition approach_C : CloseApproach := mkCA noon_2020_01_01 half half neo_C.

(** ** Criteria as the command line supplies them *)

(** The types that the docstring of [create_filters] gives its
    arguments: a [date] for the three date criteria, a float for the six
    bounds and a [bool] for [hazardous], each of them possibly [None]. *)
Definition well_typed_argument (c : criterion) (v : value) : bool :=
  match v with
  | VNone => true
  | VDate _ =>
      match c with
      | date_c | start_date_c | end_date_c => true
      | _ => false
      end
  | VBool _ =>
      match c with
      | hazardous_c => true
      | _ => false
      end
  | VFloat _ =>
      match c with
      | distance_min_c | distance_max_c | velocity_min_c | velocity_max_c
      | diameter_min_c | diameter_max_c => true
      | _ => false
      end
  end.

Definition typed (k : criteria) : bool :=
  forallb (fun c => well_typed_argument c (argument k c)) all_criterions.

(** A bound on the diameter was given. *)
Definition diameter_bounded (k : criteria) : bool :=
  is_not_None (c_diameter_min k) || is_not_None (c_diameter_max k).

(** The diameter of the approach's NEO is a float, not [None]. *)
Definition diameter_known (approach : CloseApproach) : bool :=
  match diameter (neo approach) with
  | Some _ => true
  | None => false
  end.

(** [d1 < d2] on dates, field by field. *)
Definition date_lt (d1 d2 : date) : Prop :=
  year d1 < year d2
  \/ (year d1 = year d2
      /\ (month d1 < month d2
          \/ (month d1 = month d2 /\ day d1 < day d2))).

(** [create_filters(start_date=s, end_date=e)] *)
Definition date_range (s e : date) : criteria :=
  mkCriteria VNone (VDate s) (VDate e) VNone VNone VNone VNone VNone VNone
             VNone.

(** A source that hands out the items of a list and then raises [e]. *)
Definition failing_next {A : Type} (e : exn) (l : list A)
    : outcome A * list A :=
  match l with
  | [] => (Raised e, [])
  | x :: rest => (Yield x, rest)
  end.

(** ** [__repr__] *)

(** [self.__class__.__name__] and [self.op.__name__]. *)
Definition class_name (c : filter_class) : string :=
  match c with
  | AttributeFilter_cls => "AttributeFilter"
  | DateFilter => "DateFilter"
  | DistanceFilter => "DistanceFilter"
  | VelocityFilter => "VelocityFilter"
  | DiameterFilter => "DiameterFilter"
  | HazardousFilter => "HazardousFilter"
  end.

Definition op_name (o : comparator) : string :=
  match o with
  | op_lt => "lt"
  | op_le => "le"
  | op_eq => "eq"
  | op_ne => "ne"
  | op_ge => "ge"
  | op_gt => "gt"
  end.

Section Repr.
(** [str(v)], which the f-string applies to [self.value]; it belongs to
    Python, not to this code. *)
Variable str_value : value -> string.

Definition repr (self : AttributeFilter) : string :=
  (class_name (cls self) ++ "(op=operator." ++ op_name (op self)
   ++ ", value=" ++ str_value (fvalue self) ++ ")")%string.
End Repr.

(** ** Python dictionaries *)

(** A [dict] with string keys: its items in insertion order, no key
    twice. *)
Fixpoint dict_set {V : Type} (key : string) (v : V) (d : list (string * V))
    : list (string * V) :=
  match d with
  | [] => [(key, v)]
  | (key', v') :: rest =>
      if String.eqb key key' then (key, v) :: rest
      else (key', v') :: dict_set key v rest
  end.

Fixpoint dict_get {V : Type} (key : string) (d : list (string * V)) : option V :=
  match d with
  | [] => None
  | (key', v') :: rest =>
      if String.eqb key key' then Some v' else dict_get key rest
  end.

(** [dict(items)], also a literal [{k1: v1, ...}]: later items replace
    the value of an earlier item with the same key. *)
Definition dict_of {V : Type} (items : list (string * V)) : list (string * V) :=
  fold_left (fun d kv => dict_set (fst kv) (snd kv) d) items [].

Definition dict_keys {V : Type} (d : list (string * V)) : list string :=
  map fst d.

(** ** [write.py] *)

(** The objects that the writers hand to the [csv] and [json] modules. *)
#[warnings="-register-all"]
Inductive pyobj : Type :=
  | PNone
  | PStr (s : string)
  | PFloat (x : spec_float)
  | PBool (b : bool)
  | PDict (items : list (string * pyobj))
  | PList (items : list pyobj).

(** What is in the file at [filename]: the rows given to the CSV
    writer, each a list of cells, or the object given to [json.dump]. *)
Inductive file_content : Type :=
  | CsvRows (rows : list (list pyobj))
  | JsonDoc (doc : pyobj).

(** How a writer ends: it returns, the [results] iterator raises,
    [DictWriter.writerow] raises [ValueError], or the loop was cut off. *)
Inductive write_end : Type :=
  | Returns
  | ResultsRaised (e : exn)
  | ValueError
  | Unfinished.

Definition fieldnames : list string :=
  ["datetime_utc"; "distance_au"; "velocity_km_s";
   "designation"; "name"; "diameter_km"; "potentially_hazardous"]%string.

(** [csv.DictWriter._dict_to_list] with the default [restval=''] and
    [extrasaction='raise']: a key outside the field names is a
    [ValueError] (here [None]); otherwise the cells are looked up field
    by field. *)
Definition dict_to_list (fields : list string) (rowdict : list (string * pyobj))
    : option (list pyobj) :=
  if forallb (fun key => existsb (String.eqb key) fields) (dict_keys rowdict)
  then Some (map (fun key => match dict_get key rowdict with
                             | Some v => v
                             | None => PStr ""
                             end) fields)
  else None.

(** [DictWriter.writeheader] writes the row
    [dict(zip(fieldnames, fieldnames))]. *)
Definition header_dict (fields : list string) : list (string * pyobj) :=
  dict_of (combine fields (map PStr fields)).

Section Write.
Context {St : Type}.
(** The [results] iterator. *)
Variable next : St -> outcome CloseApproach * St.
(** [helpers.datetime_to_str], which is not part of the sources at hand. *)
Variable datetime_to_str : datetime -> string.

(** The dictionary [row] of [write_to_csv]. *)
Definition csv_row (approach : CloseApproach) : list (string * pyobj) :=
  dict_of
    [("datetime_utc", PStr (datetime_to_str (time approach)));
     ("distance_au", PFloat (distance approach));
     ("velocity_km_s", PFloat (velocity approach));
     ("designation", PStr (designation (neo approach)));
     ("name", match name (neo approach) with
              | Some s => PStr s
              | None => PStr ""
              end);
     ("diameter_km", match diameter (neo approach) with
                     | Some x => PFloat x
                     | None => PStr "nan"
                     end);
     ("potentially_hazardous",
      if hazardous (neo approach) then PStr "True" else PStr "False")]%string.

(** The loop [for approach in results: ... writer.writerow(row)];
    [rows] is what the file holds so far. *)
Fixpoint csv_loop (fuel : nat) (results : St) (rows : list (list pyobj))
    : list (list pyobj) * write_end :=
  match fuel with
  | O => (rows, Unfinished)
  | S fuel' =>
      match next results with
      | (Yield approach, results') =>
          match dict_to_list fieldnames (csv_row approach) with
          | Some cells => csv_loop fuel' results' (rows ++ [cells])
          | None => (rows, ValueError)
          end
      | (StopIteration, _) => (rows, Returns)
      | (Raised e, _) => (rows, ResultsRaised e)
      end
  end.

(** [write_to_csv(results, filename)]: the file is opened for writing,
    which empties it, before anything else happens; [before] is what it
    held, if it existed. *)
Definition write_to_csv (fuel : nat) (results : St)
    (before : option file_content) : option file_content * write_end :=
  match dict_to_list fieldnames (header_dict fieldnames) with
  | Some cells =>
      let (rows, e) := csv_loop fuel results [cells] in
      (Some (CsvRows rows), e)
  | None => (Some (CsvRows []), ValueError)
  end.

(** The dictionary [approach_data] of [write_to_json]. *)
Definition json_record (approach : CloseApproach) : pyobj :=
  PDict (dict_of
    [("datetime_utc", PStr (datetime_to_str (time approach)));
     ("distance_au", PFloat (distance approach));
     ("velocity_km_s", PFloat (velocity approach));
     ("neo", PDict (dict_of
        [("designation", PStr (designation (neo approach)));
         ("name", match name (neo approach) with
                  | Some s => PStr s
                  | None => PStr ""
                  end);
         ("diameter_km", match diameter (neo approach) with
                         | Some x => PFloat x
                         | None => PFloat S754_nan
                         end);
         ("potentially_hazardous",
          PBool (hazardous (neo approach)))]))]%string).

(** The loop [for approach in results: ... cad_list.append(...)]. *)
Fixpoint json_loop (fuel : nat) (results : St) (cad_list : list pyobj)
    : list pyobj * write_end :=
  match fuel with
  | O => (cad_list, Unfinished)
  | S fuel' =>
      match next results with
      | (Yield approach, results') =>
          json_loop fuel' results' (cad_list ++ [json_record approach])
      | (StopIteration, _) => (cad_list, Returns)
      | (Raised e, _) => (cad_list, ResultsRaised e)
      end
  end.

(** [write_to_json(results, filename)]: the file is opened only after
    the loop. *)
Definition write_to_json (fuel : nat) (results : St)
    (before : option file_content) : option file_content * write_end :=
  let (cad_list, e) := json_loop fuel results [] in
  match e with
  | Returns => (Some (JsonDoc (PList cad_list)), Returns)
  | _ => (before, e)
  end.

(** The cells of the CSV row of an approach, column by column. *)
Definition csv_cells (approach : CloseApproach) : list pyobj :=
  [PStr (datetime_to_str (time approach));
   PFloat (distance approach);
   PFloat (velocity approach);
   PStr (designation (neo approach));
   PStr (match name (neo approach) with Some s => s | None => "" end);
   match diameter (neo approach) with
   | Some x => PFloat x
   | None => PStr "nan"
   end;
   PStr (if hazardous (neo approach) then "True" else "False")]%string.
End Write.

(** How the writers' loop ends, from how the loop over [results] ends. *)
Definition write_end_of (e : ending) : write_end :=
  match e with
  | Exhausted => Returns
  | Failed x => ResultsRaised x
  | Pending => Unfinished
  end.

(** A string or a float, the two kinds of cell the CSV rows hold. *)
Definition is_text_or_number (c : pyobj) : bool :=
  match c with
  | PStr _ | PFloat _ => true
  | _ => false
  end.

(** ** [extract.py] *)

Section Extract.
Context {V T : Type}.
(** The constructor of [CloseApproach] in [models.py], which is not
    part of the sources at hand; it is called with the dictionary
    unpacked into keyword arguments. *)
Variable CloseApproach_init : list (string * V) -> T.

(** [dict(zip(fields, row))] *)
Definition row_mapped (fields : list string) (row : list V)
    : list (string * V) :=
  dict_of (combine fields row).

(** The loop of [load_approaches] over [cad_data['data']], with
    [fields = cad_data['fields']]. *)
Definition load_approaches (fields : list string) (data : list (list V))
    : list T :=
  fold_left
    (fun cad_list row => cad_list ++ [CloseApproach_init (row_mapped fields row)])
    data [].
End Extract.

(** * Properties *)

(** ** Evaluating a filter *)

Lemma date_compare_refl (d : date) : date_compare d d = Eq.
Proof.
  unfold date_compare. now rewrite !Z.compare_refl.
Qed.

Lemma mismatch_op_not_unsupported (o : comparator) (b : bool) :
  mismatch_op o b <> Raise UnsupportedCriterionError.
Proof.
  destruct o; discriminate.
Qed.

(** No comparison of the [operator] module raises
    [UnsupportedCriterionError]. *)
Lemma apply_op_not_unsupported (o : comparator) (x y : value) :
  apply_op o x y <> Raise UnsupportedCriterionError.
Proof.
  destruct x, y; cbn [apply_op as_number];
    try discriminate; apply mismatch_op_not_unsupported.
Qed.

Lemma call_base_class (o : comparator) (v : value) (a : CloseApproach) :
  call (mkFilter AttributeFilter_cls o v) a = Raise UnsupportedCriterionError.
Proof.
  reflexivity.
Qed.

(** A comparison with NaN on either side is false for [<=] and [>=]. *)
Lemma float_bound_nan_left (x : spec_float) :
  float_op op_ge S754_nan x = false /\ float_op op_le S754_nan x = false.
Proof.
  split; destruct x; reflexivity.
Qed.

(** With the unknown diameter stored as [float('nan')], a diameter
    filter with a float bound evaluates false, for the lower and for the
    upper bound. *)
Lemma diameter_nan_never_satisfies_bound (a : CloseApproach) (bound : spec_float) :
  diameter (neo a) = Some S754_nan ->
  call (mkFilter DiameterFilter op_ge (VFloat bound)) a = Ok false
  /\ call (mkFilter DiameterFilter op_le (VFloat bound)) a = Ok false.
Proof.
  intros H. unfold call. cbn [cls get bind op fvalue]. rewrite H.
  cbn [value_of_diameter apply_op as_number].
  destruct (float_bound_nan_left bound) as [Hge Hle].
  now rewrite Hge, Hle.
Qed.

(** With the unknown diameter stored as [None], as the docstring of
    [DiameterFilter.get] has it, the same two filters raise. *)
Lemma diameter_None_bound_raises (a : CloseApproach) (bound : spec_float) :
  diameter (neo a) = None ->
  call (mkFilter DiameterFilter op_ge (VFloat bound)) a = Raise TypeError
  /\ call (mkFilter DiameterFilter op_le (VFloat bound)) a = Raise TypeError.
Proof.
  intros H. unfold call. cbn [cls get bind op fvalue]. rewrite H.
  split; reflexivity.
Qed.

(** ** The filters built by [create_filters] *)

Lemma append_if_given_app (c : filter_class) (o : comparator) (v : value)
    (l : list AttributeFilter) :
  append_if_given c o v l = l ++ (if is_not_None v then [mkFilter c o v] else []).
Proof.
  unfold append_if_given. destruct (is_not_None v); [reflexivity|].
  now rewrite app_nil_r.
Qed.

(** The list is built criterion by criterion, in the order of the
    parameters. *)
Lemma create_filters_flat_map (k : criteria) :
  create_filters k = flat_map (contribution k) all_criterions.
Proof.
  unfold create_filters. rewrite !append_if_given_app.
  cbn [flat_map all_criterions app]. unfold contribution, expected_filter.
  cbn [argument expected_class expected_op].
  rewrite app_nil_r, <- !app_assoc. reflexivity.
Qed.

Lemma built_for_expected (k : criteria) (c c' : criterion) :
  built_for c (expected_filter k c') = criterion_eqb c c'.
Proof.
  destruct c, c'; reflexivity.
Qed.

Lemma filter_contribution (k : criteria) (c c' : criterion) :
  filter (built_for c) (contribution k c') =
  if criterion_eqb c c' then contribution k c' else [].
Proof.
  unfold contribution. destruct (is_not_None (argument k c')).
  - cbn [filter]. rewrite built_for_expected.
    now destruct (criterion_eqb c c').
  - now destruct (criterion_eqb c c').
Qed.

Lemma filter_flat_map {A B : Type} (p : B -> bool) (g : A -> list B) (l : list A) :
  filter p (flat_map g l) = flat_map (fun x => filter p (g x)) l.
Proof.
  induction l as [|x l IH]; [reflexivity|].
  cbn [flat_map]. now rewrite filter_app, IH.
Qed.

Lemma filter_built_for_create_filters (k : criteria) (c : criterion) :
  filter (built_for c) (create_filters k) = contribution k c.
Proof.
  rewrite create_filters_flat_map, filter_flat_map.
  unfold all_criterions. cbn [flat_map]. rewrite !filter_contribution.
  destruct c; cbn [criterion_eqb app]; now rewrite ?app_nil_r.
Qed.

Lemma Forall_flat_map_intro {A B : Type} (P : B -> Prop) (g : A -> list B)
    (l : list A) :
  (forall x, In x l -> Forall P (g x)) -> Forall P (flat_map g l).
Proof.
  induction l as [|x l IH]; intros H; cbn [flat_map]; [constructor|].
  apply Forall_app. split.
  - apply H. now left.
  - apply IH. intros y Hy. apply H. now right.
Qed.

(** Every filter of the list is the one promised for a criterion that
    was given. *)
Lemma create_filters_only_expected (k : criteria) :
  Forall (fun f => exists c, is_not_None (argument k c) = true
                             /\ f = expected_filter k c)
         (create_filters k).
Proof.
  rewrite create_filters_flat_map. apply Forall_flat_map_intro.
  intros c _. unfold contribution.
  destruct (is_not_None (argument k c)) eqn:E; constructor; [|constructor].
  now exists c.
Qed.

Lemma length_flat_map_contribution (k : criteria) (l : list criterion) :
  length (flat_map (contribution k) l) =
  length (filter (fun c => is_not_None (argument k c)) l).
Proof.
  induction l as [|c l IH]; [reflexivity|].
  cbn [flat_map filter]. rewrite length_app, IH. unfold contribution.
  now destruct (is_not_None (argument k c)).
Qed.

(** The builder only instantiates the five concrete subclasses. *)
Lemma create_filters_concrete (k : criteria) :
  Forall (fun f => cls f <> AttributeFilter_cls) (create_filters k).
Proof.
  eapply Forall_impl; [|apply create_filters_only_expected].
  intros f [c [_ ->]]. destruct c; discriminate.
Qed.

(** C2: whatever the ten arguments, the filters of the returned list
    that carry the class and comparator of a criterion ([==] for [date]
    and [hazardous], [>=] for [start_date] and the three minima, [<=] for
    [end_date] and the three maxima) are exactly one filter, holding the
    argument, when the argument is not [None], and none when it is
    [None]; every filter of the list is such a filter of a given
    criterion, and the list has as many filters as there are arguments
    that are not [None]. *)
Theorem create_filters_one_filter_per_given_criterion (k : criteria) :
  (forall c : criterion,
      filter (built_for c) (create_filters k) =
      if is_not_None (argument k c)
      then [mkFilter (expected_class c) (expected_op c) (argument k c)]
      else [])
  /\ Forall (fun f => exists c, is_not_None (argument k c) = true
                                /\ f = expected_filter k c)
            (create_filters k)
  /\ length (create_filters k) =
     length (filter (fun c => is_not_None (argument k c)) all_criterions).
Proof.
  split; [|split].
  - intros c. apply filter_built_for_create_filters.
  - apply create_filters_only_expected.
  - rewrite create_filters_flat_map. apply length_flat_map_contribution.
Qed.

(** C7: the filter built from [date=D] evaluates true on every approach
    whose timestamp has [D] as its calendar date, whatever the time of
    day; and a date filter, with any comparator and reference value,
    cannot tell apart two approaches that agree on the calendar date. *)
Theorem date_filter_ignores_time_of_day (approach : CloseApproach) (D : date) :
  date_part (time approach) = D ->
  create_filters (mkCriteria (VDate D) VNone VNone VNone VNone VNone VNone
                             VNone VNone VNone)
    = [mkFilter DateFilter op_eq (VDate D)]
  /\ call (mkFilter DateFilter op_eq (VDate D)) approach = Ok true
  /\ forall (other : CloseApproach) (o : comparator) (v : value),
       date_part (time other) = D ->
       call (mkFilter DateFilter o v) other
       = call (mkFilter DateFilter o v) approach.
Proof.
  intros H. split; [reflexivity|split].
  - unfold call. cbn [cls get bind op fvalue apply_op]. rewrite H.
    unfold date_op. now rewrite date_compare_refl.
  - intros other o v H'. unfold call. cbn [cls get bind]. now rewrite H, H'.
Qed.

Lemma date_filter_ignores_time_of_day_witness :
  date_part (time approach_A) = mkdate 2020 1 1
  /\ call (mkFilter DateFilter op_eq (VDate (mkdate 2020 1 1))) approach_A
     = Ok true.
Proof.
  split; [reflexivity|].
  exact (proj1 (proj2 (date_filter_ignores_time_of_day
                         approach_A (mkdate 2020 1 1) eq_refl))).
Defined.

(** C8 at an NEO whose diameter is unknown in the sense of
    [DiameterFilter.get] ([None]): the filter that [create_filters]
    builds from [diameter_min=0.5] does not evaluate false, it raises
    [TypeError]; so does the one built from [diameter_max=0.5]. *)
Theorem diameter_filter_on_None_diameter_raises :
  diameter (neo approach_B) = None
  /\ create_filters (mkCriteria VNone VNone VNone VNone VNone VNone VNone
                                (VFloat half) VNone VNone)
     = [mkFilter DiameterFilter op_ge (VFloat half)]
  /\ call (mkFilter DiameterFilter op_ge (VFloat half)) approach_B
     = Raise TypeError
  /\ call (mkFilter DiameterFilter op_le (VFloat half)) approach_B
     = Raise TypeError.
Proof.
  repeat split.
Qed.

(** C9: evaluating a filter raises [UnsupportedCriterionError] exactly
    when its class is the base class [AttributeFilter]; [__call__] hands
    the exception on to its caller (the evaluation is the exception, no
    boolean); and no filter returned by [create_filters] raises it. *)
Theorem unsupported_criterion_iff_base_class :
  (forall (f : AttributeFilter) (a : CloseApproach),
      call f a = Raise UnsupportedCriterionError
      <-> cls f = AttributeFilter_cls)
  /\ (forall (k : criteria) (a : CloseApproach),
         Forall (fun f => call f a <> Raise UnsupportedCriterionError)
                (create_filters k)).
Proof.
  assert (Hiff : forall f a, call f a = Raise UnsupportedCriterionError
                             <-> cls f = AttributeFilter_cls).
  { intros [c o v] a. cbn [cls]. split.
    - destruct c; [reflexivity| | | | |]; unfold call;
        cbn [cls get bind op fvalue]; intros H;
        now apply apply_op_not_unsupported in H.
    - intros ->. apply call_base_class. }
  split; [exact Hiff|].
  intros k a. eapply Forall_impl; [|apply (create_filters_concrete k)].
  intros f Hf H. now apply Hiff in H.
Qed.

(** ** [query] *)

Lemma consume_query_next (filters : list AttributeFilter)
    (approaches : list CloseApproach) :
  forall fuel : nat,
    (length approaches < fuel)%nat ->
    consume (query_next filters) fuel approaches
    = (query_all filters approaches, []).
Proof.
  induction approaches as [|a rest IH]; intros [|fuel] Hfuel;
    try (cbn [length] in Hfuel; lia).
  - reflexivity.
  - cbn [length] in Hfuel. cbn [consume query_next query_all].
    destruct (all_pass filters a) as [[|]|e].
    + rewrite (IH fuel) by lia. now destruct (query_all filters rest).
    + change (consume (query_next filters) (S fuel) rest
              = (query_all filters rest, [])).
      apply IH. lia.
    + reflexivity.
Qed.

Lemma query_eq_query_all (approaches : list CloseApproach)
    (filters : list AttributeFilter) :
  query approaches filters = query_all filters approaches.
Proof.
  unfold query. rewrite consume_query_next by lia. reflexivity.
Qed.

Lemma all_pass_evaluable (filters : list AttributeFilter) (a : CloseApproach) :
  forallb (fun f => is_ok (call f a)) filters = true ->
  all_pass filters a = Ok (forallb (fun f => holds f a) filters).
Proof.
  induction filters as [|f filters IH]; cbn [forallb all_pass]; [reflexivity|].
  intros H. apply andb_true_iff in H as [Hf Hrest]. unfold holds at 1.
  destruct (call f a) as [[|]|e]; cbn [bind andb];
    [now apply IH | reflexivity | discriminate].
Qed.

Lemma query_all_evaluable (filters : list AttributeFilter)
    (approaches : list CloseApproach) :
  evaluable filters approaches = true ->
  query_all filters approaches
  = (filter (fun a => forallb (fun f => holds f a) filters) approaches,
     Exhausted).
Proof.
  unfold evaluable.
  induction approaches as [|a rest IH]; cbn [forallb query_all filter];
    [reflexivity|].
  intros H. apply andb_true_iff in H as [Ha Hrest].
  rewrite (all_pass_evaluable _ _ Ha), (IH Hrest).
  now destruct (forallb (fun f => holds f a) filters).
Qed.

Lemma query_all_no_filters (approaches : list CloseApproach) :
  query_all [] approaches = (approaches, Exhausted).
Proof.
  induction approaches as [|a rest IH]; [reflexivity|].
  cbn [query_all all_pass]. now rewrite IH.
Qed.

(** ** The hazardous criterion *)

Lemma call_not_hazardous_filter (a : CloseApproach) :
  call (mkFilter HazardousFilter op_eq (VBool false)) a = Ok (not_hazardous a).
Proof.
  unfold call, not_hazardous. cbn [cls get bind op fvalue].
  now destruct (hazardous (neo a)).
Qed.

Lemma all_pass_snoc_not_hazardous (filters : list AttributeFilter)
    (a : CloseApproach) :
  all_pass (filters ++ [mkFilter HazardousFilter op_eq (VBool false)]) a
  = match all_pass filters a with
    | Ok true => Ok (not_hazardous a)
    | r => r
    end.
Proof.
  induction filters as [|f filters IH]; cbn [app all_pass].
  - rewrite call_not_hazardous_filter. cbn [bind].
    now destruct (not_hazardous a).
  - destruct (call f a) as [[|]|e]; cbn [bind]; [exact IH | reflexivity..].
Qed.

Lemma query_all_snoc_not_hazardous (filters : list AttributeFilter)
    (approaches : list CloseApproach) :
  query_all (filters ++ [mkFilter HazardousFilter op_eq (VBool false)])
            approaches
  = (filter not_hazardous (fst (query_all filters approaches)),
     snd (query_all filters approaches)).
Proof.
  induction approaches as [|a rest IH]; [reflexivity|].
  cbn [query_all]. rewrite all_pass_snoc_not_hazardous.
  destruct (all_pass filters a) as [[|]|e]; [|exact IH|reflexivity].
  rewrite IH. destruct (query_all filters rest) as [vs e].
  cbn [fst snd filter]. now destruct (not_hazardous a).
Qed.

Lemma create_filters_hazardous_False (k : criteria) :
  create_filters (with_hazardous k (VBool false))
  = create_filters (with_hazardous k VNone)
    ++ [mkFilter HazardousFilter op_eq (VBool false)].
Proof.
  reflexivity.
Qed.

Lemma create_filters_hazardous_None (k : criteria) :
  Forall (fun f => cls f <> HazardousFilter)
         (create_filters (with_hazardous k VNone)).
Proof.
  eapply Forall_impl; [|apply create_filters_only_expected].
  intros f [c [Hc ->]]. destruct c; discriminate.
Qed.

(** C1: when the filters evaluate to booleans on the approaches, the
    run of [query] yields exactly the approaches on which every filter
    evaluates true, each as often as it is stored and in the stored
    order, and then stops; without any filter it yields all approaches,
    in the stored order. *)
Theorem query_yields_exactly_the_matching_approaches
    (approaches : list CloseApproach) (filters : list AttributeFilter) :
  evaluable filters approaches = true ->
  query approaches filters
  = (filter (fun a => forallb (fun f => holds f a) filters) approaches,
     Exhausted)
  /\ query approaches [] = (approaches, Exhausted).
Proof.
  intros H. rewrite !query_eq_query_all. split.
  - now apply query_all_evaluable.
  - apply query_all_no_filters.
Qed.

Lemma query_yields_exactly_the_matching_approaches_witness :
  evaluable (create_filters (with_hazardous no_criteria (VBool false)))
            [approach_A; approach_B; approach_C] = true
  /\ query [approach_A; approach_B; approach_C]
           (create_filters (with_hazardous no_criteria (VBool false)))
     = ([approach_B; approach_C], Exhausted).
Proof.
  split; [reflexivity|].
  exact (proj1 (query_yields_exactly_the_matching_approaches
                  [approach_A; approach_B; approach_C]
                  (create_filters (with_hazardous no_criteria (VBool false)))
                  eq_refl)).
Defined.

(** C6: with [hazardous=False] the builder returns the filters it
    returns with [hazardous=None] (none of which is a hazardous filter)
    followed by the filter [hazardous == False]; [query] then yields the
    approaches it yields with [hazardous=None] that belong to an NEO
    that is not hazardous, and ends the same way.  With no other
    criterion, [hazardous=False] keeps exactly the approaches of NEOs
    that are not hazardous and [hazardous=None] keeps every approach. *)
Theorem hazardous_False_differs_from_None
    (k : criteria) (approaches : list CloseApproach) :
  create_filters (with_hazardous k (VBool false))
  = create_filters (with_hazardous k VNone)
    ++ [mkFilter HazardousFilter op_eq (VBool false)]
  /\ Forall (fun f => cls f <> HazardousFilter)
            (create_filters (with_hazardous k VNone))
  /\ query approaches (create_filters (with_hazardous k (VBool false)))
     = (filter not_hazardous
          (fst (query approaches (create_filters (with_hazardous k VNone)))),
        snd (query approaches (create_filters (with_hazardous k VNone))))
  /\ query approaches
           (create_filters (with_hazardous no_criteria (VBool false)))
     = (filter not_hazardous approaches, Exhausted)
  /\ query approaches (create_filters (with_hazardous no_criteria VNone))
     = (approaches, Exhausted).
Proof.
  split; [apply create_filters_hazardous_False|].
  split; [apply create_filters_hazardous_None|].
  rewrite !query_eq_query_all.
  assert (Hnone : create_filters (with_hazardous no_criteria VNone) = [])
    by reflexivity.
  split; [|split].
  - rewrite create_filters_hazardous_False.
    apply query_all_snoc_not_hazardous.
  - rewrite create_filters_hazardous_False, Hnone.
    rewrite query_all_snoc_not_hazardous, query_all_no_filters.
    reflexivity.
  - rewrite Hnone. apply query_all_no_filters.
Qed.

(** ** [limit] *)

Section Consumer_facts.
Context {A St : Type}.
Variable next : St -> outcome A * St.

Lemma calls_S_fst (k : nat) (s : St) :
  fst (calls next (S k) s)
  = fst (next s) :: fst (calls next k (snd (next s))).
Proof.
  cbn [calls]. destruct (next s) as [o s1].
  cbn [fst snd]. destruct (calls next k s1). reflexivity.
Qed.

Lemma calls_S_snd (k : nat) (s : St) :
  snd (calls next (S k) s) = snd (calls next k (snd (next s))).
Proof.
  cbn [calls]. destruct (next s) as [o s1].
  cbn [fst snd]. destruct (calls next k s1). reflexivity.
Qed.
End Consumer_facts.

Section Limit_facts.
Context {A St : Type}.
Variable next : St -> outcome A * St.

Local Abbreviation lnext := (limit_next next).

Lemma limit_next_passing (g : limit_gen St) :
  passing g -> lnext g = resume_at next in_yield_from g.
Proof.
  unfold limit_next. intros [H | [H | H]]; now rewrite H.
Qed.

Lemma limit_next_looping (i n : Z) (g : limit_gen St) :
  looping i n g -> lnext g = resume_at next (in_for i n) g.
Proof.
  unfold limit_next. intros [H | [H [Hn ->]]]; rewrite H; [reflexivity|].
  cbn [enter]. apply Z.eqb_neq in Hn. now rewrite Hn.
Qed.

(** A generator that has returned stays so, and leaves its source alone. *)
Lemma calls_returned (k : nat) (g : limit_gen St) :
  frame g = Returned ->
  calls lnext k g = (repeat StopIteration k, g).
Proof.
  intros H. induction k as [|k IH]; [reflexivity|].
  cbn [calls repeat]. unfold limit_next at 1. now rewrite H, IH.
Qed.

(** *** The pass-through branch *)

Lemma consume_passing (fuel : nat) :
  forall g : limit_gen St,
    passing g ->
    let direct := consume next fuel (iterator g) in
    let through := consume lnext fuel g in
    fst (fst through) = fst (fst direct)
    /\ snd (fst through) = snd (fst direct)
    /\ iterator (snd through) = snd direct
    /\ pulls (snd through)
       = (pulls g + length (fst (fst direct))
          + closing_calls (snd (fst direct)))%nat.
Proof.
  induction fuel as [|fuel IH]; intros g Hg; cbn zeta.
  - cbn. repeat split. lia.
  - cbn [consume]. rewrite (limit_next_passing g Hg). unfold resume_at.
    destruct (next (iterator g)) as [[v| |e] s1]; cbn; try (repeat split; lia).
    specialize (IH (mkGen (Suspended in_yield_from) s1 (S (pulls g)))).
    cbn zeta in IH. cbn [iterator pulls] in IH.
    destruct IH as (H1 & H2 & H3 & H4); [right; right; reflexivity|].
    destruct (consume lnext fuel _) as [[ws e'] g'].
    destruct (consume next fuel s1) as [[vs e] s2].
    cbn in *. subst. repeat split. lia.
Qed.

Lemma calls_passing_pulls (k : nat) :
  forall g : limit_gen St,
    passing g -> (pulls (snd (calls lnext k g)) <= pulls g + k)%nat.
Proof.
  induction k as [|k IH]; intros g Hg; [cbn; lia|].
  rewrite calls_S_snd, (limit_next_passing g Hg). unfold resume_at.
  destruct (next (iterator g)) as [[v| |e] s1]; cbn [snd].
  - etransitivity; [apply IH; right; right; reflexivity|]. cbn [pulls]. lia.
  - rewrite calls_returned by reflexivity. cbn. lia.
  - rewrite calls_returned by reflexivity. cbn. lia.
Qed.

(** *** The counting branch *)

Lemma calls_looping_yields (vs : list A) :
  forall (g : limit_gen St) (i n : Z) (s' : St),
    looping i n g ->
    Z.of_nat (length vs) <= n - i ->
    calls next (length vs) (iterator g) = (map Yield vs, s') ->
    exists g',
      calls lnext (length vs) g = (map Yield vs, g')
      /\ iterator g' = s'
      /\ pulls g' = (pulls g + length vs)%nat
      /\ looping (i + Z.of_nat (length vs)) n g'.
Proof.
  induction vs as [|v vs IH]; intros g i n s' Hg Hlen Hsrc.
  - cbn in Hsrc. injection Hsrc as <-. exists g. cbn [length calls map].
    repeat split; [lia|]. now rewrite Z.add_0_r.
  - cbn [length calls map] in *.
    rewrite (limit_next_looping i n g Hg). unfold resume_at.
    destruct (next (iterator g)) as [o s1].
    destruct (calls next (length vs) s1) as [os s2] eqn:Hrest.
    injection Hsrc as -> -> ->.
    assert (Hi : (i >=? n) = false) by (rewrite Z.geb_leb; apply Z.leb_gt; lia).
    rewrite Hi.
    destruct (IH (mkGen (Suspended (in_for (i + 1) n)) s1 (S (pulls g)))
                 (i + 1) n s') as (g' & H1 & H2 & H3 & H4);
      [left; reflexivity | lia | exact Hrest |].
    exists g'. rewrite H1. cbn [pulls] in H3.
    repeat split; [assumption | lia |].
    replace (i + Z.of_nat (S (length vs)))
      with (i + 1 + Z.of_nat (length vs)) by lia.
    exact H4.
Qed.

Lemma calls_looping_pulls (k : nat) :
  forall (g : limit_gen St) (i n : Z),
    looping i n g ->
    (pulls (snd (calls lnext k g)) <= pulls g + Z.to_nat (n - i) + 1)%nat
    /\ (pulls (snd (calls lnext k g)) <= pulls g + k)%nat.
Proof.
  induction k as [|k IH]; intros g i n Hg; [cbn; lia|].
  rewrite calls_S_snd, (limit_next_looping i n g Hg). unfold resume_at.
  destruct (next (iterator g)) as [[v| |e] s1];
    [destruct (i >=? n) eqn:Hi|..]; cbn [snd];
    try (rewrite calls_returned by reflexivity; cbn; lia).
  rewrite Z.geb_leb in Hi. apply Z.leb_gt in Hi.
  destruct (IH (mkGen (Suspended (in_for (i + 1) n)) s1 (S (pulls g)))
               (i + 1) n) as [H1 H2]; [left; reflexivity|].
  cbn [pulls] in H1, H2. lia.
Qed.

Lemma calls_looping_returns (k : nat) :
  forall (g : limit_gen St) (i n : Z),
    looping i n g ->
    (Z.to_nat (n - i) < k)%nat ->
    frame (snd (calls lnext k g)) = Returned.
Proof.
  induction k as [|k IH]; intros g i n Hg Hk; [lia|].
  rewrite calls_S_snd, (limit_next_looping i n g Hg). unfold resume_at.
  destruct (next (iterator g)) as [[v| |e] s1];
    [destruct (i >=? n) eqn:Hi|..]; cbn [snd];
    try (now rewrite calls_returned by reflexivity).
  rewrite Z.geb_leb in Hi. apply Z.leb_gt in Hi.
  apply (IH _ (i + 1) n); [left; reflexivity | lia].
Qed.

Lemma consume_looping_ends (fuel : nat) :
  forall (g : limit_gen St) (i n : Z),
    looping i n g ->
    (Z.to_nat (n - i) < fuel)%nat ->
    snd (fst (consume lnext fuel g)) <> Pending
    /\ (length (fst (fst (consume lnext fuel g))) <= Z.to_nat (n - i))%nat.
Proof.
  induction fuel as [|fuel IH]; intros g i n Hg Hk; [lia|].
  cbn [consume]. rewrite (limit_next_looping i n g Hg). unfold resume_at.
  destruct (next (iterator g)) as [[v| |e] s1];
    [destruct (i >=? n) eqn:Hi|..]; cbn [fst snd length];
    try (split; [discriminate | lia]).
  rewrite Z.geb_leb in Hi. apply Z.leb_gt in Hi.
  destruct (IH (mkGen (Suspended (in_for (i + 1) n)) s1 (S (pulls g)))
               (i + 1) n) as [H1 H2]; [left; reflexivity | lia |].
  destruct (consume lnext fuel _) as [[ws e'] g'].
  cbn [fst snd length] in *. split; [assumption | lia].
Qed.

Lemma calls_looping_no_yield (k : nat) (g : limit_gen St) (i n : Z) :
  looping i n g ->
  n <= i ->
  forall v : A, ~ In (Yield v) (fst (calls lnext k g)).
Proof.
  intros Hg Hle v. destruct k as [|k]; [intros []|].
  rewrite calls_S_fst, (limit_next_looping i n g Hg).
  unfold resume_at.
  assert (Hi : (i >=? n) = true) by (rewrite Z.geb_leb; apply Z.leb_le; lia).
  rewrite Hi.
  destruct (next (iterator g)) as [[w| |e] s1]; cbn [fst snd];
    rewrite calls_returned by reflexivity; cbn [fst];
    (intros [H | H]; [discriminate | apply repeat_spec in H; discriminate]).
Qed.
End Limit_facts.

(** *** Finite sources *)

Lemma consume_list_next {A : Type} (items : list A) :
  forall fuel : nat,
    (length items < fuel)%nat ->
    consume list_next fuel items = (items, Exhausted, []).
Proof.
  induction items as [|x rest IH]; intros [|fuel] Hfuel;
    cbn [length] in Hfuel; try lia; [reflexivity|].
  cbn [consume list_next]. rewrite IH by lia. reflexivity.
Qed.

Lemma consume_looping_list {A : Type} (items : list A) :
  forall (fuel : nat) (g : limit_gen (list A)) (i n : Z),
    looping i n g ->
    iterator g = items ->
    (length items < fuel)%nat ->
    fst (consume (limit_next list_next) fuel g)
    = (firstn (Z.to_nat (n - i)) items, Exhausted).
Proof.
  induction items as [|x rest IH]; intros [|fuel] g i n Hg Hit Hfuel;
    cbn [length] in Hfuel; try lia;
    cbn [consume]; rewrite (limit_next_looping _ i n g Hg);
    unfold resume_at; rewrite Hit; cbn [list_next].
  - now rewrite firstn_nil.
  - destruct (i >=? n) eqn:Hi; rewrite Z.geb_leb in Hi.
    + apply Z.leb_le in Hi.
      replace (Z.to_nat (n - i)) with 0%nat by lia. reflexivity.
    + apply Z.leb_gt in Hi.
      replace (Z.to_nat (n - i)) with (S (Z.to_nat (n - (i + 1)))) by lia.
      assert (Hrest := IH fuel (mkGen (Suspended (in_for (i + 1) n)) rest
                                      (S (pulls g))) (i + 1) n
                          (or_introl eq_refl) eq_refl ltac:(lia)).
      destruct (consume (limit_next list_next) fuel _) as [[ws e] g'].
      cbn [fst] in *. rewrite firstn_cons.
      injection Hrest as -> ->. reflexivity.
Qed.

(** C3: for a bound [N >= 0] and a list [items] as the source, a loop
    over [limit(items, N)] collects the first [min(N, len(items))] items
    of the list, in order, and then sees the generator stop; with
    [N = 0] it collects the whole list. *)
Theorem limit_yields_first_items {A : Type} (items : list A) (N : Z) :
  0 <= N ->
  let out := fst (consume (limit_next list_next) (S (length items))
                          (limit items (Some N))) in
  out = (if N =? 0 then items else firstn (Z.to_nat N) items, Exhausted)
  /\ length (fst out)
     = (if N =? 0 then length items
        else Z.to_nat (Z.min N (Z.of_nat (length items)))).
Proof.
  intros HN. cbn zeta.
  assert (Hout : fst (consume (limit_next list_next) (S (length items))
                              (limit items (Some N)))
                 = (if N =? 0 then items else firstn (Z.to_nat N) items,
                    Exhausted)).
  { destruct (N =? 0) eqn:E.
    - apply Z.eqb_eq in E. subst N.
      destruct (consume_passing list_next (S (length items))
                  (limit items (Some 0))) as (H1 & H2 & _);
        [right; left; reflexivity|].
      cbn [iterator limit] in H1, H2.
      rewrite consume_list_next in H1, H2 by lia. cbn [fst snd] in H1, H2.
      destruct (consume _ _ _) as [[ws e] g']. cbn [fst snd] in *.
      now subst.
    - apply Z.eqb_neq in E.
      rewrite (consume_looping_list items (S (length items))
                 (limit items (Some N)) 0 N);
        [| right; repeat split; assumption | reflexivity | lia].
      now rewrite Z.sub_0_r. }
  split; [exact Hout|].
  rewrite Hout. cbn [fst]. destruct (N =? 0); [reflexivity|].
  rewrite length_firstn. lia.
Qed.

Lemma limit_yields_first_items_witness :
  0 <= 2
  /\ fst (consume (limit_next list_next) 4 (limit [10; 20; 30] (Some 2)))
     = ([10; 20], Exhausted).
Proof.
  split; [lia|].
  exact (proj1 (limit_yields_first_items [10; 20; 30] 2 ltac:(lia))).
Defined.

(** *** Any source, finite or not *)

Section Limit_on_any_source.
Context {A St : Type}.
Variable next : St -> outcome A * St.

Local Abbreviation lnext := (limit_next next).

(** C4: a loop over [limit(S, None)] with room for [fuel] calls of
    [next] sees what the same loop over [S] itself sees: the same items
    in the same order and the same ending; it leaves the source in the
    same state, having called the source's [next] once for each call of
    its own consumer; and after [k] calls of [next] on the generator the
    source has been pulled at most [k] times. *)
Theorem limit_None_is_pass_through (s : St) (fuel k : nat) :
  let direct := consume next fuel s in
  let through := consume lnext fuel (limit s None) in
  fst (fst through) = fst (fst direct)
  /\ snd (fst through) = snd (fst direct)
  /\ iterator (snd through) = snd direct
  /\ pulls (snd through)
     = (length (fst (fst direct)) + closing_calls (snd (fst direct)))%nat
  /\ (pulls (snd (calls lnext k (limit s None))) <= k)%nat.
Proof.
  cbn zeta.
  destruct (consume_passing next fuel (limit s None))
    as (H1 & H2 & H3 & H4); [left; reflexivity|].
  repeat split; try assumption.
  apply (calls_passing_pulls next k (limit s None)). left; reflexivity.
Qed.

(** C5, as amended: for a bound [n >= 1], as long as the source yields,
    the first [j <= n] calls of [next] on [limit(S, n)] yield the first
    [j] items of the source and pull the source exactly [j] times; the
    generator never pulls the source more than [n + 1] times, nor more
    often than it has been called; after more than [n] calls it has
    returned; so a loop over it ends within [n + 1] calls, with at most
    [n] items, also on a source that never stops. *)
Theorem limit_pulls_at_most_once_after_nth_item (s : St) (n : Z) :
  1 <= n ->
  (forall (vs : list A) (s' : St),
      Z.of_nat (length vs) <= n ->
      calls next (length vs) s = (map Yield vs, s') ->
      exists g',
        calls lnext (length vs) (limit s (Some n)) = (map Yield vs, g')
        /\ iterator g' = s'
        /\ pulls g' = length vs)
  /\ (forall k : nat,
         (pulls (snd (calls lnext k (limit s (Some n)))) <= Z.to_nat n + 1)%nat
         /\ (pulls (snd (calls lnext k (limit s (Some n)))) <= k)%nat)
  /\ (forall k : nat,
         (Z.to_nat n < k)%nat ->
         frame (snd (calls lnext k (limit s (Some n)))) = Returned)
  /\ (forall fuel : nat,
         (Z.to_nat n < fuel)%nat ->
         snd (fst (consume lnext fuel (limit s (Some n)))) <> Pending
         /\ (length (fst (fst (consume lnext fuel (limit s (Some n)))))
             <= Z.to_nat n)%nat).
Proof.
  intros Hn.
  assert (Hloop : looping 0 n (limit s (Some n)))
    by (right; repeat split; lia).
  split; [|split; [|split]].
  - intros vs s' Hlen Hsrc.
    destruct (calls_looping_yields next vs (limit s (Some n)) 0 n s' Hloop)
      as (g' & H1 & H2 & H3 & _); [lia | exact Hsrc |].
    exists g'. repeat split; assumption.
  - intros k.
    destruct (calls_looping_pulls next k (limit s (Some n)) 0 n Hloop)
      as [H1 H2].
    rewrite Z.sub_0_r in H1. cbn [pulls limit] in H1, H2. lia.
  - intros k Hk. apply (calls_looping_returns next k _ 0 n Hloop).
    now rewrite Z.sub_0_r.
  - intros fuel Hfuel.
    destruct (consume_looping_ends next fuel (limit s (Some n)) 0 n Hloop)
      as [H1 H2]; [now rewrite Z.sub_0_r|].
    rewrite Z.sub_0_r in H2. now split.
Qed.

(** C10: for a negative bound [n], whatever the source, [limit(S, n)]
    yields no item, however often [next] is called on it, and pulls the
    source at most once. *)
Theorem limit_negative_yields_nothing (s : St) (n : Z) (k : nat) :
  n < 0 ->
  (forall v : A, ~ In (Yield v) (fst (calls lnext k (limit s (Some n)))))
  /\ fst (fst (consume lnext k (limit s (Some n)))) = []
  /\ (pulls (snd (calls lnext k (limit s (Some n)))) <= 1)%nat.
Proof.
  intros Hn.
  assert (Hloop : looping 0 n (limit s (Some n)))
    by (right; repeat split; lia).
  split; [|split].
  - apply (calls_looping_no_yield next k _ 0 n Hloop). lia.
  - destruct k as [|k]; [reflexivity|].
    destruct (consume_looping_ends next (S k) (limit s (Some n)) 0 n Hloop)
      as [_ H]; [lia|].
    replace (Z.to_nat (n - 0)) with 0%nat in H by lia.
    destruct (fst (fst (consume lnext (S k) (limit s (Some n)))));
      [reflexivity | cbn in H; lia].
  - destruct (calls_looping_pulls next k (limit s (Some n)) 0 n Hloop)
      as [H _].
    replace (Z.to_nat (n - 0)) with 0%nat in H by lia.
    cbn [pulls limit] in H. lia.
Qed.
End Limit_on_any_source.

(** C5 as stated fails: after [limit([10, 20, 30], 2)] has yielded its
    two items with two pulls, the third [next] pulls the source a third
    time, taking 30 from it, before the generator stops. *)
Lemma limit_pulls_after_nth_item_counterexample :
  fst (calls (limit_next list_next) 2 (limit three_items (Some 2%Z)))
  = [Yield 10; Yield 20]
  /\ pulls (snd (calls (limit_next list_next) 2 (limit three_items (Some 2%Z))))
     = 2%nat
  /\ fst (calls (limit_next list_next) 3 (limit three_items (Some 2%Z)))
     = [Yield 10; Yield 20; StopIteration]
  /\ pulls (snd (calls (limit_next list_next) 3 (limit three_items (Some 2%Z))))
     = 3%nat
  /\ iterator (snd (calls (limit_next list_next) 3
                          (limit three_items (Some 2%Z)))) = []
  /\ ~ (forall k : nat,
           (2 <= k)%nat ->
           pulls (snd (calls (limit_next list_next) k
                             (limit three_items (Some 2%Z))))
           = pulls (snd (calls (limit_next list_next) 2
                               (limit three_items (Some 2%Z))))).
Proof.
  repeat split.
  intros H. specialize (H 3%nat ltac:(lia)). discriminate H.
Qed.

Lemma limit_pulls_at_most_once_after_nth_item_witness :
  1 <= 3
  /\ fst (fst (consume (limit_next count_next) 4 (limit 0%Z (Some 3%Z))))
     = [0; 1; 2]
  /\ snd (fst (consume (limit_next count_next) 4 (limit 0%Z (Some 3%Z))))
     <> Pending
  /\ (pulls (snd (calls (limit_next count_next) 10 (limit 0%Z (Some 3%Z))))
      <= 4)%nat.
Proof.
  split; [lia|]. split; [reflexivity|]. split.
  - exact (proj1 (proj2 (proj2 (proj2
             (limit_pulls_at_most_once_after_nth_item count_next 0 3
                ltac:(lia)))) 4%nat ltac:(cbn; lia))).
  - exact (proj1 (proj1 (proj2
             (limit_pulls_at_most_once_after_nth_item count_next 0 3
                ltac:(lia))) 10%nat)).
Defined.

Lemma limit_negative_yields_nothing_witness :
  -1 < 0
  /\ fst (fst (consume (limit_next list_next) 5
                       (limit three_items (Some (-1)%Z)))) = []
  /\ (pulls (snd (calls (limit_next list_next) 5
                        (limit three_items (Some (-1)%Z)))) <= 1)%nat.
Proof.
  split; [lia|].
  exact (proj2 (limit_negative_yields_nothing list_next three_items (-1) 5
                  ltac:(lia))).
Defined.

(** * Further properties of the code *)

(** ** Filters built from typed criteria *)

Lemma forallb_flat_map {A B : Type} (p : B -> bool) (g : A -> list B)
    (l : list A) :
  forallb p (flat_map g l) = forallb (fun x => forallb p (g x)) l.
Proof.
  induction l as [|x l IH]; [reflexivity|].
  cbn [flat_map forallb]. now rewrite forallb_app, IH.
Qed.

Lemma typed_argument (k : criteria) (c : criterion) :
  typed k = true -> well_typed_argument c (argument k c) = true.
Proof.
  unfold typed. rewrite forallb_forall. intros H. apply H.
  destruct c; cbn; tauto.
Qed.

(** The filter of a criterion evaluates to a boolean unless it is a
    diameter bound met by a diameter [None]. *)
Lemma contribution_evaluates (k : criteria) (c : criterion) (a : CloseApproach) :
  well_typed_argument c (argument k c) = true ->
  forallb (fun f => is_ok (call f a)) (contribution k c)
  = match c with
    | diameter_min_c | diameter_max_c =>
        negb (is_not_None (argument k c)) || diameter_known a
    | _ => true
    end.
Proof.
  unfold contribution, expected_filter, call, diameter_known.
  destruct c; cbn [expected_class expected_op cls op fvalue get bind];
    destruct (argument k _) as [|b|x|d]; cbn; intros H;
    try discriminate H; try reflexivity;
    try (now destruct (hazardous (neo a)));
    now destruct (diameter (neo a)).
Qed.

(** The filters come in the order of the parameters of
    [create_filters]: the list is the list of the criteria that were
    given, in that order, each replaced by its filter. *)
Theorem create_filters_in_parameter_order (k : criteria) :
  create_filters k
  = map (expected_filter k)
        (filter (fun c => is_not_None (argument k c)) all_criterions).
Proof.
  rewrite create_filters_flat_map.
  induction all_criterions as [|c l IH]; [reflexivity|].
  cbn [flat_map filter]. unfold contribution at 1.
  destruct (is_not_None (argument k c)); cbn [map app]; now rewrite IH.
Qed.

(** With arguments of the documented types, every filter of the list
    evaluates to a boolean on an approach, except when a diameter bound
    was given and the diameter of the approach's NEO is [None]: then,
    and only then, some filter raises. *)
Theorem typed_criteria_evaluate_unless_diameter_None
    (k : criteria) (a : CloseApproach) :
  typed k = true ->
  forallb (fun f => is_ok (call f a)) (create_filters k)
  = negb (diameter_bounded k) || diameter_known a.
Proof.
  intros Hk. rewrite create_filters_flat_map, forallb_flat_map.
  unfold all_criterions. cbn [forallb].
  rewrite !contribution_evaluates by (apply typed_argument; exact Hk).
  unfold diameter_bounded. cbn [argument].
  destruct (is_not_None (c_diameter_min k)),
           (is_not_None (c_diameter_max k)), (diameter_known a); reflexivity.
Qed.

Lemma typed_criteria_evaluate_unless_diameter_None_witness :
  typed (mkCriteria VNone VNone VNone VNone VNone VNone VNone
                    (VFloat half) VNone (VBool false)) = true
  /\ forallb (fun f => is_ok (call f approach_B))
             (create_filters (mkCriteria VNone VNone VNone VNone VNone VNone
                                         VNone (VFloat half) VNone
                                         (VBool false)))
     = false.
Proof.
  split; [reflexivity|].
  exact (typed_criteria_evaluate_unless_diameter_None
           (mkCriteria VNone VNone VNone VNone VNone VNone VNone
                       (VFloat half) VNone (VBool false))
           approach_B eq_refl).
Defined.

(** ** Equality against the two bounds *)

Lemma SFcompare_antisym (x y : spec_float) :
  SFcompare y x = option_map CompOpp (SFcompare x y).
Proof.
  destruct x as [s1|s1| |s1 m1 e1], y as [s2|s2| |s2 m2 e2]; cbn;
    try destruct s1; try destruct s2; try reflexivity;
    assert (Hm : Pos.compare_cont Eq m2 m1
                 = CompOpp (Pos.compare_cont Eq m1 m2))
      by (symmetry; apply (Pos.compare_cont_antisym m1 m2 Eq));
    rewrite (Z.compare_antisym e1 e2), Hm;
    destruct (e1 ?= e2); cbn; try reflexivity;
    now rewrite ?CompOpp_involutive.
Qed.

Lemma float_eq_is_ge_and_le (x v : spec_float) :
  float_op op_eq x v = float_op op_ge x v && float_op op_le x v.
Proof.
  unfold float_op, SFeqb, SFleb. rewrite (SFcompare_antisym x v).
  now destruct (SFcompare x v) as [[| |]|].
Qed.

Lemma date_eq_is_ge_and_le (d v : date) :
  date_op op_eq d v = date_op op_ge d v && date_op op_le d v.
Proof.
  unfold date_op. now destruct (date_compare d v).
Qed.

Lemma apply_op_eq_is_ge_and_le (x v : value) (b1 b2 : bool) :
  apply_op op_ge x v = Ok b1 ->
  apply_op op_le x v = Ok b2 ->
  apply_op op_eq x v = Ok (b1 && b2).
Proof.
  destruct x, v; cbn [apply_op as_number mismatch_op]; intros H1 H2;
    try discriminate; injection H1 as <-; injection H2 as <-;
    now rewrite ?float_eq_is_ge_and_le, ?date_eq_is_ge_and_le.
Qed.

(** Whatever the class of the filter and the reference value: when the
    filters with [>=] and with [<=] both evaluate, the filter with [==]
    evaluates to their conjunction.  So [date=D] accepts what
    [start_date=D] and [end_date=D] both accept, and a minimum and a
    maximum set to the same value select on equality. *)
Theorem equality_filter_is_both_bounds
    (c : filter_class) (v : value) (a : CloseApproach) (b1 b2 : bool) :
  call (mkFilter c op_ge v) a = Ok b1 ->
  call (mkFilter c op_le v) a = Ok b2 ->
  call (mkFilter c op_eq v) a = Ok (b1 && b2).
Proof.
  unfold call. cbn [cls op fvalue].
  destruct (get c a) as [x|e]; cbn [bind]; [|discriminate].
  apply apply_op_eq_is_ge_and_le.
Qed.

Lemma equality_filter_is_both_bounds_witness :
  call (mkFilter DateFilter op_ge (VDate (mkdate 2020 1 1))) approach_A
  = Ok true
  /\ call (mkFilter DateFilter op_le (VDate (mkdate 2020 1 1))) approach_A
     = Ok true
  /\ call (mkFilter DateFilter op_eq (VDate (mkdate 2020 1 1))) approach_A
     = Ok (true && true).
Proof.
  split; [reflexivity|]. split; [reflexivity|].
  exact (equality_filter_is_both_bounds DateFilter
           (VDate (mkdate 2020 1 1)) approach_A true true eq_refl eq_refl).
Defined.

(** ** Date ranges and the hazardous flag *)

Lemma date_compare_spec (d1 d2 : date) :
  match date_compare d1 d2 with
  | Lt => date_lt d1 d2
  | Eq => d1 = d2
  | Gt => date_lt d2 d1
  end.
Proof.
  unfold date_compare, date_lt. destruct d1 as [y1 m1 x1], d2 as [y2 m2 x2].
  cbn [year month day].
  destruct (Z.compare_spec y1 y2); [|lia..].
  destruct (Z.compare_spec m1 m2); [|lia..].
  destruct (Z.compare_spec x1 x2); [|lia..].
  now subst.
Qed.

Lemma date_lt_irrefl (d : date) : ~ date_lt d d.
Proof.
  unfold date_lt. lia.
Qed.

Lemma date_op_ge_iff (d s : date) :
  date_op op_ge d s = true <-> ~ date_lt d s.
Proof.
  unfold date_op. generalize (date_compare_spec d s).
  destruct (date_compare d s); intros H; split; intros H';
    try discriminate; try reflexivity.
  - subst. apply date_lt_irrefl.
  - contradiction.
  - unfold date_lt in *. lia.
Qed.

Lemma date_op_le_iff (d e : date) :
  date_op op_le d e = true <-> ~ date_lt e d.
Proof.
  unfold date_op. generalize (date_compare_spec d e).
  destruct (date_compare d e); intros H; split; intros H';
    try discriminate; try reflexivity.
  - subst. apply date_lt_irrefl.
  - unfold date_lt in *. lia.
  - contradiction.
Qed.

Lemma date_range_holds (s e : date) (a : CloseApproach) :
  forallb (fun f => holds f a) (create_filters (date_range s e))
  = date_op op_ge (date_part (time a)) s
    && date_op op_le (date_part (time a)) e.
Proof.
  unfold holds, call. cbn -[date_op].
  destruct (date_op op_ge (date_part (time a)) s),
           (date_op op_le (date_part (time a)) e); reflexivity.
Qed.

Lemma date_range_holds_iff (s e : date) (a : CloseApproach) :
  forallb (fun f => holds f a) (create_filters (date_range s e)) = true
  <-> ~ date_lt (date_part (time a)) s /\ ~ date_lt e (date_part (time a)).
Proof.
  rewrite date_range_holds, andb_true_iff, date_op_ge_iff, date_op_le_iff.
  reflexivity.
Qed.

(** [start_date=s] and [end_date=e] together accept an approach exactly
    when its calendar date is neither before [s] nor after [e]: both
    ends of the range are included. *)
Theorem date_range_is_inclusive (s e : date) (a : CloseApproach) :
  forallb (fun f => holds f a) (create_filters (date_range s e)) = true
  <-> ~ date_lt (date_part (time a)) s /\ ~ date_lt e (date_part (time a)).
Proof.
  apply date_range_holds_iff.
Qed.

(** A range whose end is before its start accepts no approach; no
    filter raises, the approach is just rejected. *)
Theorem inverted_date_range_accepts_nothing (s e : date) (a : CloseApproach) :
  date_lt e s ->
  forallb (fun f => holds f a) (create_filters (date_range s e)) = false
  /\ forallb (fun f => is_ok (call f a)) (create_filters (date_range s e))
     = true.
Proof.
  intros H. split; [|reflexivity].
  apply not_true_is_false. rewrite date_range_holds_iff.
  unfold date_lt in *. lia.
Qed.

Lemma inverted_date_range_accepts_nothing_witness :
  date_lt (mkdate 2020 1 1) (mkdate 2020 1 2)
  /\ forallb (fun f => holds f approach_A)
             (create_filters (date_range (mkdate 2020 1 2) (mkdate 2020 1 1)))
     = false.
Proof.
  assert (H : date_lt (mkdate 2020 1 1) (mkdate 2020 1 2))
    by (unfold date_lt; cbn; lia).
  split; [exact H|].
  exact (proj1 (inverted_date_range_accepts_nothing
                  (mkdate 2020 1 2) (mkdate 2020 1 1) approach_A H)).
Defined.

(** The filter built from [hazardous=h] accepts an approach exactly
    when the flag of its NEO is [h], and never raises: every approach is
    accepted by one, and only one, of [hazardous=True] and
    [hazardous=False]. *)
Theorem hazardous_filter_matches_flag (h : bool) (a : CloseApproach) :
  create_filters (with_hazardous no_criteria (VBool h))
  = [mkFilter HazardousFilter op_eq (VBool h)]
  /\ call (mkFilter HazardousFilter op_eq (VBool h)) a
     = Ok (Bool.eqb (hazardous (neo a)) h)
  /\ holds (mkFilter HazardousFilter op_eq (VBool true)) a
     = negb (holds (mkFilter HazardousFilter op_eq (VBool false)) a).
Proof.
  unfold holds, call. cbn [cls op fvalue get bind].
  repeat split; destruct (hazardous (neo a)); try destruct h; reflexivity.
Qed.

(** ** [limit] on any source, once more *)

Section Limit_characterisation.
Context {A St : Type}.
Variable next : St -> outcome A * St.

Local Abbreviation lnext := (limit_next next).

Lemma consume_looping (fuel : nat) :
  forall (g : limit_gen St) (i n : Z),
    looping i n g ->
    let direct := consume next fuel (iterator g) in
    let through := consume lnext fuel g in
    fst (fst through) = firstn (Z.to_nat (n - i)) (fst (fst direct))
    /\ snd (fst through)
       = (if (Z.to_nat (n - i) <? length (fst (fst direct)))%nat
          then Exhausted else snd (fst direct))
    /\ pulls (snd through)
       = (pulls g
          + Nat.min (Z.to_nat (n - i) + 1)
                    (length (fst (fst direct))
                     + closing_calls (snd (fst direct))))%nat.
Proof.
  induction fuel as [|fuel IH]; intros g i n Hg; cbn zeta.
  - cbn. rewrite firstn_nil. repeat split. lia.
  - cbn [consume]. rewrite (limit_next_looping next i n g Hg).
    unfold resume_at.
    destruct (next (iterator g)) as [[v| |e] s1].
    + specialize (IH (mkGen (Suspended (in_for (i + 1) n)) s1 (S (pulls g)))
                     (i + 1) n (or_introl eq_refl)).
      cbn zeta in IH. cbn [iterator pulls] in IH.
      destruct (consume next fuel s1) as [[vs e] s2].
      destruct (i >=? n) eqn:Hi; rewrite Z.geb_leb in Hi.
      * apply Z.leb_le in Hi.
        replace (Z.to_nat (n - i)) with 0%nat by lia.
        cbn. repeat split. lia.
      * apply Z.leb_gt in Hi.
        replace (Z.to_nat (n - i)) with (S (Z.to_nat (n - (i + 1)))) by lia.
        destruct (consume lnext fuel _) as [[ws e'] g'].
        cbn [fst snd length firstn] in *.
        destruct IH as (H1 & H2 & H3). subst ws e'. rewrite H3.
        repeat split. lia.
    + cbn. rewrite firstn_nil. repeat split. lia.
    + cbn. rewrite firstn_nil. repeat split. lia.
Qed.

(** For a bound [n] other than 0 and any source: a loop over
    [limit(S, n)] collects the first [n] of the items that the same loop
    over [S] collects.  It ends like the loop over [S] when [S] has at
    most [n] items, so an exception that [S] raises in place of item
    [n + 1] still reaches the consumer, and with [StopIteration]
    otherwise.  The source is called [n + 1] times, or as often as the
    loop over [S] calls it if that is less. *)
Theorem limit_takes_first_items_of_any_source (s : St) (n : Z) (fuel : nat) :
  n <> 0 ->
  let direct := consume next fuel s in
  let through := consume lnext fuel (limit s (Some n)) in
  fst (fst through) = firstn (Z.to_nat n) (fst (fst direct))
  /\ snd (fst through)
     = (if (Z.to_nat n <? length (fst (fst direct)))%nat
        then Exhausted else snd (fst direct))
  /\ pulls (snd through)
     = Nat.min (Z.to_nat n + 1)
               (length (fst (fst direct)) + closing_calls (snd (fst direct))).
Proof.
  intros Hn.
  assert (Hloop : looping 0 n (limit s (Some n)))
    by (right; repeat split; assumption).
  generalize (consume_looping fuel (limit s (Some n)) 0 n Hloop).
  cbn zeta. now rewrite Z.sub_0_r.
Qed.

(** A bound of 0 does not mean "no items": on any source, a loop over
    [limit(S, 0)] sees the items and the ending of the loop over [S],
    pulling the source once per call, however long that goes on. *)
Theorem limit_zero_is_pass_through (s : St) (fuel : nat) :
  let direct := consume next fuel s in
  let through := consume lnext fuel (limit s (Some 0)) in
  fst through = fst direct
  /\ iterator (snd through) = snd direct
  /\ pulls (snd through)
     = (length (fst (fst direct)) + closing_calls (snd (fst direct)))%nat.
Proof.
  cbn zeta.
  destruct (consume_passing next fuel (limit s (Some 0)))
    as (H1 & H2 & H3 & H4); [right; left; reflexivity|].
  cbn [iterator pulls limit] in *.
  destruct (consume lnext fuel _) as [[ws e'] g'].
  destruct (consume next fuel s) as [[vs e] s'].
  cbn [fst snd] in *. subst. repeat split. lia.
Qed.

Lemma limit_next_ends_returned (g g' : limit_gen St) (o : outcome A) :
  limit_next next g = (o, g') ->
  (forall v, o <> Yield v) ->
  frame g' = Returned.
Proof.
  unfold limit_next, resume_at. intros H Ho.
  destruct (frame g) as [n|p|] eqn:Hf;
    [destruct (enter n) as [|i b] | destruct p as [|i b] | ];
    try (destruct (next (iterator g)) as [[v| |e] s1];
         try destruct (i >=? b));
    injection H as <- <-; try reflexivity; try assumption;
    now contradiction (Ho v).
Qed.

(** Once [next] on the generator has raised, be it [StopIteration] or
    an exception of the source, every later [next] raises
    [StopIteration] and leaves the source alone, whatever the source
    would do if asked again. *)
Theorem limit_stays_finished (g g' : limit_gen St) (o : outcome A) (k : nat) :
  limit_next next g = (o, g') ->
  (forall v, o <> Yield v) ->
  calls lnext k g' = (repeat StopIteration k, g').
Proof.
  intros H Ho. apply calls_returned.
  exact (limit_next_ends_returned g g' o H Ho).
Qed.
End Limit_characterisation.

Lemma limit_takes_first_items_of_any_source_witness :
  2 <> 0
  /\ fst (consume (failing_next TypeError) 5 three_items)
     = (three_items, Failed TypeError)
  /\ fst (consume (limit_next (failing_next TypeError)) 5
                  (limit three_items (Some 3)))
     = (three_items, Failed TypeError)
  /\ fst (consume (limit_next (failing_next TypeError)) 5
                  (limit three_items (Some 2)))
     = ([10; 20], Exhausted).
Proof.
  split; [lia|]. split; [reflexivity|]. split; [reflexivity|].
  destruct (limit_takes_first_items_of_any_source
              (failing_next TypeError) three_items 2 5 ltac:(lia))
    as (H1 & H2 & _).
  destruct (consume (limit_next (failing_next TypeError)) 5 _)
    as [[ws e] g'].
  cbn in H1, H2. cbn [fst]. now subst.
Defined.

Lemma limit_stays_finished_witness :
  limit_next (failing_next (A := Z) TypeError) (limit [] (Some 2))
  = (Raised TypeError, mkGen Returned [] 1)
  /\ calls (limit_next (failing_next (A := Z) TypeError)) 3
           (mkGen Returned [] 1)
     = ([StopIteration; StopIteration; StopIteration], mkGen Returned [] 1).
Proof.
  split; [reflexivity|].
  apply (limit_stays_finished (failing_next (A := Z) TypeError)
           (limit [] (Some 2)) (mkGen Returned [] 1) (Raised TypeError) 3).
  - reflexivity.
  - discriminate.
Defined.

Lemma consume_limit_items {A St : Type} (next : St -> outcome A * St)
    (s : St) (n : Z) (fuel : nat) :
  n <> 0 ->
  fst (fst (consume (limit_next next) fuel (limit s (Some n))))
  = firstn (Z.to_nat n) (fst (fst (consume next fuel s))).
Proof.
  intros Hn.
  assert (Hloop : looping 0 n (limit s (Some n)))
    by (right; repeat split; assumption).
  destruct (consume_looping next fuel (limit s (Some n)) 0 n Hloop)
    as (H & _).
  now rewrite Z.sub_0_r in H.
Qed.

(** Limiting twice is limiting once by the smaller bound: for bounds
    [m, n >= 1] and any source, a loop over [limit(limit(S, m), n)]
    collects the items that a loop over [limit(S, min(m, n))] collects. *)
Theorem limit_of_limit {A St : Type} (next : St -> outcome A * St)
    (s : St) (m n : Z) (fuel : nat) :
  1 <= m ->
  1 <= n ->
  fst (fst (consume (limit_next (limit_next next)) fuel
                    (limit (limit s (Some m)) (Some n))))
  = fst (fst (consume (limit_next next) fuel (limit s (Some (Z.min m n))))).
Proof.
  intros Hm Hn.
  rewrite (consume_limit_items (limit_next next)) by lia.
  rewrite !(consume_limit_items next) by lia.
  rewrite firstn_firstn. f_equal. lia.
Qed.

Lemma limit_of_limit_witness :
  1 <= 5 /\ 1 <= 2
  /\ fst (fst (consume (limit_next (limit_next count_next)) 9
                       (limit (limit 0 (Some 5)) (Some 2))))
     = [0; 1].
Proof.
  split; [lia|]. split; [lia|].
  rewrite (limit_of_limit count_next 0 5 2 9 ltac:(lia) ltac:(lia)).
  reflexivity.
Defined.

(** ** The writers *)

Section Write_facts.
Context {St : Type}.
Variable next : St -> outcome CloseApproach * St.
Variable datetime_to_str : datetime -> string.

Local Abbreviation cells_of := (csv_cells datetime_to_str).

(** The keys of [row] are the field names, so [writerow] accepts it and
    puts each value in the column of its key. *)
Lemma dict_to_list_csv_row (a : CloseApproach) :
  dict_to_list fieldnames (csv_row datetime_to_str a) = Some (cells_of a).
Proof.
  unfold csv_row, csv_cells.
  destruct (name (neo a)), (diameter (neo a)), (hazardous (neo a));
    reflexivity.
Qed.

Lemma dict_to_list_header :
  dict_to_list fieldnames (header_dict fieldnames)
  = Some (map PStr fieldnames).
Proof.
  reflexivity.
Qed.

Lemma csv_loop_consume (fuel : nat) :
  forall (results : St) (rows : list (list pyobj)),
    csv_loop next datetime_to_str fuel results rows
    = (rows ++ map cells_of (fst (fst (consume next fuel results))),
       write_end_of (snd (fst (consume next fuel results)))).
Proof.
  induction fuel as [|fuel IH]; intros results rows; cbn [csv_loop consume].
  - cbn. now rewrite app_nil_r.
  - destruct (next results) as [[a| |e] s1]; cbn [fst snd map write_end_of];
      try now rewrite app_nil_r.
    rewrite dict_to_list_csv_row, IH.
    destruct (consume next fuel s1) as [[vs e] s2]. cbn [fst snd map].
    now rewrite <- app_assoc.
Qed.

Lemma json_loop_consume (fuel : nat) :
  forall (results : St) (cad_list : list pyobj),
    json_loop next datetime_to_str fuel results cad_list
    = (cad_list ++ map (json_record datetime_to_str)
                       (fst (fst (consume next fuel results))),
       write_end_of (snd (fst (consume next fuel results)))).
Proof.
  induction fuel as [|fuel IH]; intros results cad_list;
    cbn [json_loop consume].
  - cbn. now rewrite app_nil_r.
  - destruct (next results) as [[a| |e] s1]; cbn [fst snd map write_end_of];
      try now rewrite app_nil_r.
    rewrite IH. destruct (consume next fuel s1) as [[vs e] s2].
    cbn [fst snd map]. now rewrite <- app_assoc.
Qed.

Lemma write_to_csv_consume
    (fuel : nat) (results : St) (before : option file_content) :
  write_to_csv next datetime_to_str fuel results before
  = (Some (CsvRows (map PStr fieldnames
                    :: map cells_of (fst (fst (consume next fuel results))))),
     write_end_of (snd (fst (consume next fuel results)))).
Proof.
  unfold write_to_csv. rewrite dict_to_list_header, csv_loop_consume.
  reflexivity.
Qed.

(** [write_to_csv] replaces whatever the file held by the header row
    followed by one row for each approach that [results] hands out, in
    that order, the seven cells of a row in the columns of the header;
    [writerow] never raises [ValueError].  When [results] raises, the
    exception passes through and the file keeps the header and the rows
    of the approaches handed out before. *)
Theorem write_to_csv_writes_header_and_rows
    (fuel : nat) (results : St) (before : option file_content) :
  write_to_csv next datetime_to_str fuel results before
  = (Some (CsvRows (map PStr fieldnames
                    :: map cells_of (fst (fst (consume next fuel results))))),
     write_end_of (snd (fst (consume next fuel results)))).
Proof.
  apply write_to_csv_consume.
Qed.

(** [write_to_json] writes the list of the records of all approaches
    that [results] hands out, in that order, when [results] stops; when
    [results] raises, the exception passes through and the file is left
    as it was (not created, not emptied), in contrast to
    [write_to_csv]. *)
Theorem write_to_json_writes_all_or_nothing
    (fuel : nat) (results : St) (before : option file_content) :
  write_to_json next datetime_to_str fuel results before
  = match snd (fst (consume next fuel results)) with
    | Exhausted =>
        (Some (JsonDoc (PList (map (json_record datetime_to_str)
                                   (fst (fst (consume next fuel results)))))),
         Returns)
    | Failed e => (before, ResultsRaised e)
    | Pending => (before, Unfinished)
    end.
Proof.
  unfold write_to_json. rewrite json_loop_consume.
  destruct (consume next fuel results) as [[vs e] s2]. cbn [fst snd app].
  now destruct e.
Qed.

(** No row of the CSV file holds [None]: a row has seven cells, each a
    string or a float; a missing name is the empty string and a
    diameter [None] the string ['nan']. *)
Theorem write_to_csv_rows_hold_no_None
    (fuel : nat) (results : St) (before : option file_content) :
  match fst (write_to_csv next datetime_to_str fuel results before) with
  | Some (CsvRows rows) =>
      Forall (fun row => length row = 7%nat
                         /\ forallb is_text_or_number row = true) rows
  | _ => False
  end.
Proof.
  rewrite write_to_csv_consume. cbn [fst].
  constructor; [split; reflexivity|].
  apply Forall_map, Forall_forall. intros a _. unfold csv_cells.
  split; [reflexivity|]. now destruct (diameter (neo a)).
Qed.
End Write_facts.

(** ** [__repr__] *)

Lemma string_append_inj_l (p s1 s2 : string) :
  (p ++ s1 = p ++ s2)%string -> s1 = s2.
Proof.
  induction p as [|c p IH]; cbn; intros H; [exact H|].
  injection H as H. now apply IH.
Qed.

Lemma string_length_append (s1 s2 : string) :
  String.length (s1 ++ s2) = (String.length s1 + String.length s2)%nat.
Proof.
  induction s1 as [|c s1 IH]; cbn; [reflexivity|]. now rewrite IH.
Qed.

Lemma string_append_inj_r (s1 s2 t : string) :
  (s1 ++ t = s2 ++ t)%string -> s1 = s2.
Proof.
  revert s2. induction s1 as [|c s1 IH]; intros [|c' s2] H; cbn in H.
  - reflexivity.
  - apply (f_equal String.length) in H. cbn in H.
    rewrite string_length_append in H. lia.
  - apply (f_equal String.length) in H. cbn in H.
    rewrite string_length_append in H. lia.
  - injection H as -> H. now rewrite (IH s2 H).
Qed.

(** The representation of a filter tells its class and its comparator:
    two filters with the same representation have the same class and
    the same comparator, and values with the same [str]. *)
Theorem repr_tells_class_and_comparator
    (str_value : value -> string) (f1 f2 : AttributeFilter) :
  repr str_value f1 = repr str_value f2 ->
  cls f1 = cls f2 /\ op f1 = op f2
  /\ str_value (fvalue f1) = str_value (fvalue f2).
Proof.
  destruct f1 as [c1 o1 v1], f2 as [c2 o2 v2]. unfold repr.
  cbn [cls op fvalue]. intros H.
  assert (Hc : c1 = c2)
    by (destruct c1, c2; try reflexivity; cbn in H; discriminate H).
  subst c2. apply string_append_inj_l, string_append_inj_l in H.
  assert (Ho : o1 = o2)
    by (destruct o1, o2; try reflexivity; cbn in H; discriminate H).
  subst o2. apply string_append_inj_l, string_append_inj_l in H.
  apply string_append_inj_r in H. now repeat split.
Qed.

Lemma repr_tells_class_and_comparator_witness :
  repr (fun _ => "0.5"%string) (mkFilter DistanceFilter op_le (VFloat half))
  = "DistanceFilter(op=operator.le, value=0.5)"%string
  /\ cls (mkFilter DistanceFilter op_le (VFloat half))
     = cls (mkFilter DistanceFilter op_le (VFloat half)).
Proof.
  split; [reflexivity|].
  exact (proj1 (repr_tells_class_and_comparator (fun _ => "0.5"%string)
                  (mkFilter DistanceFilter op_le (VFloat half))
                  (mkFilter DistanceFilter op_le (VFloat half)) eq_refl)).
Defined.

(** ** Loading the approaches *)

Lemma dict_set_fresh {V : Type} (key : string) (v : V) (d : list (string * V)) :
  ~ In key (dict_keys d) -> dict_set key v d = d ++ [(key, v)].
Proof.
  induction d as [|[key' v'] d IH]; cbn; intros H; [reflexivity|].
  destruct (String.eqb_spec key key') as [->|Hne]; [tauto|].
  rewrite IH by tauto. reflexivity.
Qed.

Lemma fold_dict_set_distinct {V : Type} (items acc : list (string * V)) :
  NoDup (dict_keys (acc ++ items)) ->
  fold_left (fun d kv => dict_set (fst kv) (snd kv) d) items acc
  = acc ++ items.
Proof.
  revert acc. induction items as [|[key v] items IH]; intros acc H; cbn.
  - now rewrite app_nil_r.
  - change (acc ++ (key, v) :: items) with (acc ++ [(key, v)] ++ items) in *.
    rewrite app_assoc in *. rewrite dict_set_fresh.
    + now apply IH.
    + unfold dict_keys in *. rewrite !map_app in H. cbn in H.
      rewrite <- app_assoc in H. apply NoDup_remove_2 in H.
      intros Hin. apply H. apply in_or_app. now left.
Qed.

Lemma dict_of_distinct {V : Type} (items : list (string * V)) :
  NoDup (dict_keys items) -> dict_of items = items.
Proof.
  intros H. unfold dict_of. now rewrite fold_dict_set_distinct.
Qed.

Lemma keys_combine {V : Type} (fields : list string) (row : list V) :
  dict_keys (combine fields row) = firstn (length row) fields.
Proof.
  revert row. induction fields as [|key fields IH]; intros [|v row];
    cbn; try reflexivity.
  now rewrite <- IH.
Qed.

Lemma In_firstn {X : Type} (n : nat) (l : list X) (x : X) :
  In x (firstn n l) -> In x l.
Proof.
  intros H. rewrite <- (firstn_skipn n l). apply in_or_app. now left.
Qed.

Lemma NoDup_firstn {X : Type} (n : nat) (l : list X) :
  NoDup l -> NoDup (firstn n l).
Proof.
  revert n. induction l as [|x l IH]; intros [|n] H; cbn;
    try constructor.
  - inversion_clear H as [|? ? Hx Hl]. intros Hin. apply Hx.
    now apply (In_firstn n l).
  - inversion_clear H. now apply IH.
Qed.

Lemma dict_get_combine {V : Type} (fields : list string) :
  forall (row : list V) (j : nat) (key : string),
    NoDup fields ->
    nth_error fields j = Some key ->
    dict_get key (combine fields row) = nth_error row j.
Proof.
  induction fields as [|key' fields IH]; intros row j key Hnd Hj.
  - now destruct j.
  - inversion_clear Hnd as [|? ? Hfresh Hrest].
    destruct j as [|j]; cbn in Hj.
    + injection Hj as ->. destruct row as [|v row]; cbn; [reflexivity|].
      now rewrite String.eqb_refl.
    + destruct row as [|v row]; cbn; [reflexivity|].
      destruct (String.eqb_spec key key') as [->|_].
      * exfalso. apply Hfresh. now apply (nth_error_In fields j).
      * now apply IH.
Qed.

Lemma load_approaches_fold {V T : Type} (init : list (string * V) -> T)
    (fields : list string) (data : list (list V)) (acc : list T) :
  fold_left (fun cad_list row => cad_list ++ [init (row_mapped fields row)])
            data acc
  = acc ++ map (fun row => init (row_mapped fields row)) data.
Proof.
  revert acc. induction data as [|row data IH]; intros acc; cbn.
  - now rewrite app_nil_r.
  - rewrite IH, <- app_assoc. reflexivity.
Qed.

(** When the field names of the file are distinct, [load_approaches]
    builds one object per row, in the order of the rows, and the
    constructor is given, under each field name, the entry of the row in
    the column of that name: a row that is too short leaves the last
    names out, and the entries of a row beyond the last name are
    dropped. *)
Theorem load_approaches_binds_columns {V T : Type}
    (CloseApproach_init : list (string * V) -> T)
    (fields : list string) (data : list (list V)) :
  NoDup fields ->
  load_approaches CloseApproach_init fields data
  = map (fun row => CloseApproach_init (combine fields row)) data
  /\ (forall (row : list V) (j : nat) (key : string),
         nth_error fields j = Some key ->
         dict_get key (row_mapped fields row) = nth_error row j)
  /\ (forall row : list V,
         dict_keys (row_mapped fields row) = firstn (length row) fields).
Proof.
  intros Hnd.
  assert (Hrow : forall row : list V,
             row_mapped fields row = combine fields row).
  { intros row. apply dict_of_distinct. rewrite keys_combine.
    now apply NoDup_firstn. }
  split; [|split].
  - unfold load_approaches. rewrite load_approaches_fold. cbn [app].
    apply map_ext. intros row. now rewrite Hrow.
  - intros row j key Hj. rewrite Hrow. now apply dict_get_combine.
  - intros row. rewrite Hrow. apply keys_combine.
Qed.

Lemma load_approaches_binds_columns_witness :
  NoDup ["des"; "cd"; "dist"]%string
  /\ load_approaches (fun kwargs => dict_get "cd"%string kwargs)
                     ["des"; "cd"; "dist"]%string
                     [["433"; "2020-Jan-01 12:00"; "0.5"];
                      ["2020 AB"]]%string
     = [Some "2020-Jan-01 12:00"%string; None].
Proof.
  assert (H : NoDup ["des"; "cd"; "dist"]%string).
  { repeat constructor; cbn; intros H;
      repeat (destruct H as [H | H]; [discriminate H|]); exact H. }
  split; [exact H|].
  rewrite (proj1 (load_approaches_binds_columns
                    (fun kwargs => dict_get "cd"%string kwargs)
                    ["des"; "cd"; "dist"]%string
                    [["433"; "2020-Jan-01 12:00"; "0.5"];
                     ["2020 AB"]]%string H)).
  reflexivity.
Defined.

(** ** Writing limited results *)

(** The main module hands the output of [limit] to the writers: for a
    bound [n] other than 0, [write_to_csv] on [limit(S, n)] writes the
    header and the rows of the first [n] approaches that [S] hands out,
    and nothing of what follows them. *)
Theorem write_to_csv_of_limit {St : Type}
    (next : St -> outcome CloseApproach * St)
    (datetime_to_str : datetime -> string)
    (fuel : nat) (s : St) (n : Z) (before : option file_content) :
  n <> 0 ->
  fst (write_to_csv (limit_next next) datetime_to_str fuel
                    (limit s (Some n)) before)
  = Some (CsvRows
            (map PStr fieldnames
             :: map (csv_cells datetime_to_str)
                    (firstn (Z.to_nat n) (fst (fst (consume next fuel s)))))).
Proof.
  intros Hn. rewrite write_to_csv_consume. cbn [fst].
  now rewrite consume_limit_items.
Qed.

Lemma write_to_csv_of_limit_witness :
  1 <> 0
  /\ fst (write_to_csv (limit_next list_next)
                       (fun _ => "2020-01-01 12:00"%string)
                       5 (limit [approach_B; approach_A] (Some 1)) None)
     = Some (CsvRows
               [map PStr fieldnames;
                [PStr "2020-01-01 12:00"; PFloat half; PFloat half;
                 PStr "2020 AB"; PStr ""; PStr "nan"; PStr "False"]])%string.
Proof.
  split; [lia|].
  rewrite (write_to_csv_of_limit list_next
             (fun _ => "2020-01-01 12:00"%string) 5
             [approach_B; approach_A] 1 None ltac:(lia)).
  reflexivity.
Defined.
